(** * common_analysis_base: the plugin contract and its command-line client

    A shallow embedding of [common_analysis_base/analysis_plugin.py],
    [common_analysis_base/command_line_client.py] and
    [common_analysis_base/__init__.py].

    The Python code decides everything by reflection ([hasattr], [getattr],
    [callable]) on an instance and its class hierarchy, so the embedding
    starts with a small object model: values, classes with their base
    lists, the C3 linearisation that yields [__mro__], instances on a heap,
    and attribute lookup.  The functions of the source files are then
    written in an error-and-state monad over that model. *)

From Stdlib Require Import ZArith String List Ascii Lia.
From stdpp Require Import base option gmap strings list.

Set Warnings "-register-all".

Open Scope Z_scope.
Open Scope string_scope.
Open Scope list_scope.

(** ** Values *)

Module Py.

(** Heap addresses of instances. *)
Abbreviation loc := nat.

(** Function objects.  The functions defined in [analysis_plugin.py] are
    named one by one; [Fn_user n] is a function written by a plugin author
    (its behaviour is a parameter of the development, see [user_fn]). *)
Inductive func :=
| Fn_AnalysisPlugin_init
| Fn_can_analyze_file
| Fn_can_analyze_url
| Fn_can_analyze_ip
| Fn_can_analyze_domain
| Fn_prepare_analysis_report_dictionary
| Fn_FileAnalysisMixin_analyze_file
| Fn_URLAnalysisMixin_analyze_url
| Fn_IPAnalysisMixin_analyze_ip
| Fn_StringAnalysisMixin_analyze_string
| Fn_DomainAnalysisMixin_analyze_domain
| Fn_user (id : nat).

Inductive value :=
| VNone
| VBool (b : bool)
| VInt (n : Z)
| VStr (s : string)
| VDatetime (t : Z)
| VDict (d : gmap string value)
| VFunc (f : func)
| VMethod (f : func) (self : loc)   (* a function bound to an instance *)
| VRef (l : loc).                   (* an instance on the heap *)

(** Exceptions, identified by their class; a subclass counts as the class
    an [except] clause of the package names ([ModuleNotFoundError] is an
    [ImportError]). *)
Inductive exn :=
| AttributeError
| TypeError
| ValueError
| OSError
| ImportError
| NotImplementedError (msg : string)
| SystemExit (code : Z)
| OtherError (name : string).

Inductive result (A : Type) :=
| Ok (a : A)
| Raise (e : exn).
Arguments Ok {A} a.
Arguments Raise {A} e.

(** ** Classes and the method resolution order *)

(** A class statement: its name, its bases in the order written, and the
    names bound in its body. *)
Inductive class :=
| Class (name : string) (bases : list class) (body : gmap string value).

Definition c_name (c : class) : string := let '(Class n _ _) := c in n.
Definition c_bases (c : class) : list class := let '(Class _ b _) := c in b.
Definition c_dict (c : class) : gmap string value := let '(Class _ _ d) := c in d.

(** Classes are told apart by name. *)
Definition same_class (a b : class) : bool := String.eqb (c_name a) (c_name b).

Definition in_tail (c : class) (l : list class) : bool :=
  match l with
  | [] => false
  | _ :: t => existsb (same_class c) t
  end.

(** A head that occurs in the tail of no list is a good candidate. *)
Definition good_head (ls : list (list class)) (l : list class) : option class :=
  match l with
  | [] => None
  | c :: _ => if forallb (fun l' => negb (in_tail c l')) ls then Some c else None
  end.

Fixpoint pick_head (ls todo : list (list class)) : option class :=
  match todo with
  | [] => None
  | l :: rest =>
      match good_head ls l with
      | Some c => Some c
      | None => pick_head ls rest
      end
  end.

Definition drop_head (c : class) (l : list class) : list class :=
  match l with
  | h :: t => if same_class c h then t else l
  | [] => []
  end.

Definition nonempty {A} (l : list A) : bool :=
  match l with [] => false | _ => true end.

(** The merge step of the C3 linearisation; [None] when no consistent order
    exists (Python then refuses the class statement). *)
Fixpoint c3_merge (fuel : nat) (ls : list (list class)) : option (list class) :=
  match List.filter nonempty ls with
  | [] => Some []
  | ls' =>
      match fuel with
      | O => None
      | S fuel' =>
          match pick_head ls' ls' with
          | None => None
          | Some c =>
              match c3_merge fuel' (List.map (drop_head c) ls') with
              | Some r => Some (c :: r)
              | None => None
              end
          end
      end
  end.

Definition total_length (ls : list (list class)) : nat :=
  fold_right (fun l n => (length l + n)%nat) O ls.

(** [mro c] is [c.__mro__]. *)
Fixpoint mro (c : class) : option (list class) :=
  match c with
  | Class _ bases _ =>
      let fix mros (bs : list class) : option (list (list class)) :=
        match bs with
        | [] => Some []
        | b :: bs' =>
            match mro b, mros bs' with
            | Some l, Some ls => Some (l :: ls)
            | _, _ => None
            end
        end in
      match mros bases with
      | Some ls =>
          let seqs := (ls ++ [bases])%list in
          match c3_merge (S (total_length seqs)) seqs with
          | Some r => Some (c :: r)
          | None => None
          end
      | None => None
      end
  end.

(** ** Instances and attribute lookup *)

(** An instance: the [__mro__] of its type (its head is the type itself) and
    the instance [__dict__]. *)
Record object := Object {
  ob_mro : list class;
  ob_dict : gmap string value
}.

(** The heap: instances by address. *)
Abbreviation heap := (list object).

(** First binding of [name] along an [__mro__]. *)
Fixpoint mro_lookup (m : list class) (name : string) : option value :=
  match m with
  | [] => None
  | c :: m' =>
      match c_dict c !! name with
      | Some v => Some v
      | None => mro_lookup m' name
      end
  end.

(** A function found on the type is bound to the instance. *)
Definition bind_method (l : loc) (v : value) : value :=
  match v with
  | VFunc f => VMethod f l
  | _ => v
  end.

(** [getattr(v, name)]; [None] stands for [AttributeError].  The instance
    dictionary shadows the classes; values other than instances expose none
    of the attribute names used by this package. *)
Definition getattr (h : heap) (v : value) (name : string) : option value :=
  match v with
  | VRef l =>
      match h !! l with
      | Some o =>
          match ob_dict o !! name with
          | Some a => Some a
          | None => bind_method l <$> mro_lookup (ob_mro o) name
          end
      | None => None
      end
  | _ => None
  end.

Definition hasattr (h : heap) (v : value) (name : string) : bool :=
  match getattr h v name with
  | Some _ => true
  | None => false
  end.

(** [callable(v)]: functions, bound methods, and instances whose type
    defines [__call__]. *)
Definition callable (h : heap) (v : value) : bool :=
  match v with
  | VFunc _ | VMethod _ _ => true
  | VRef l =>
      match h !! l with
      | Some o =>
          match mro_lookup (ob_mro o) "__call__" with
          | Some _ => true
          | None => false
          end
      | None => false
      end
  | _ => false
  end.

(** Truth value of an object, as tested by [if]; an instance is taken to be
    true, as it is unless its class defines [__bool__] or [__len__]. *)
Definition truthy (v : value) : bool :=
  match v with
  | VNone => false
  | VBool b => b
  | VInt n => negb (Z.eqb n 0)
  | VStr s => negb (String.eqb s "")
  | VDict d => negb (Nat.eqb (size d) 0)
  | VDatetime _ | VFunc _ | VMethod _ _ | VRef _ => true
  end.

(** ** Program state and the monad of effects *)

(** Where a log record ends up. *)
Inductive sink :=
| Console
| LogFile (path : string).

(** A handler attached to the root logger, with its threshold. *)
Record handler := Handler {
  h_sink : sink;
  h_level : Z
}.

(** What the process does that an observer can see. *)
Inductive event :=
| EvLog (s : sink) (level : Z) (msg : string)    (* a record written by a handler *)
| EvPrint (v : value)                            (* pretty-printed on stdout *)
| EvCall (name : string) (args : list value).    (* a method of the analyzer entered *)

Record state := State {
  st_heap : heap;
  st_clock : Z;                  (* what [datetime.datetime.now()] reads *)
  st_handlers : list handler;    (* handlers of the root logger, oldest first *)
  st_events : list event         (* oldest first *)
}.

Definition M (A : Type) : Type := state -> result A * state.

Definition ret {A} (a : A) : M A := fun st => (Ok a, st).

Definition bind {A B} (m : M A) (k : A -> M B) : M B :=
  fun st =>
    match m st with
    | (Ok a, st') => k a st'
    | (Raise e, st') => (Raise e, st')
    end.

Definition raise {A} (e : exn) : M A := fun st => (Raise e, st).

#[global] Instance M_ret : MRet M := @ret.
#[global] Instance M_bind : MBind M := fun A B k m => bind m k.

Definition get_heap : M heap := fun st => (Ok (st_heap st), st).

Definition set_heap (h : heap) : M unit :=
  fun st => (Ok tt, State h (st_clock st) (st_handlers st) (st_events st)).

Definition emit (e : event) : M unit :=
  fun st => (Ok tt, State (st_heap st) (st_clock st) (st_handlers st)
                          (st_events st ++ [e])).

Definition add_handler (hd : handler) : M unit :=
  fun st => (Ok tt, State (st_heap st) (st_clock st) (st_handlers st ++ [hd])
                          (st_events st)).

(** [datetime.datetime.now()] *)
Definition datetime_now : M value := fun st => (Ok (VDatetime (st_clock st)), st).

(** [obj.name] as an expression. *)
Definition load_attr (v : value) (name : string) : M value :=
  fun st =>
    match getattr (st_heap st) v name with
    | Some a => (Ok a, st)
    | None => (Raise AttributeError, st)
    end.

(** [obj.name = a] as a statement. *)
Definition store_attr (v : value) (name : string) (a : value) : M unit :=
  fun st =>
    match v with
    | VRef l =>
        match st_heap st !! l with
        | Some o =>
            (Ok tt, State (<[l := Object (ob_mro o) (<[name := a]> (ob_dict o))]> (st_heap st))
                          (st_clock st) (st_handlers st) (st_events st))
        | None => (Raise AttributeError, st)
        end
    | _ => (Raise AttributeError, st)
    end.

End Py.

Import Py.

(** ** analysis_plugin.py *)

Module analysis_plugin.

(** *** The functions of the module *)

(** [AnalysisPlugin.__init__(self, plugin_version, system_version=None)] *)
Definition __init__ (self plugin_version system_version : value) : M value :=
  store_attr self "plugin_version" plugin_version;;
  store_attr self "system_version" system_version;;
  mret VNone.

(** [hasattr(self, name) and callable(getattr(self, name))], the body shared
    by the four queries. *)
Definition has_callable (self : value) (name : string) : M value :=
  h ← get_heap;
  if hasattr h self name
  then a ← load_attr self name; mret (VBool (callable h a))
  else mret (VBool false).

Definition can_analyze_file (self : value) : M value :=
  has_callable self "analyze_file".

Definition can_analyze_url (self : value) : M value :=
  has_callable self "analyze_url".

Definition can_analyze_ip (self : value) : M value :=
  has_callable self "analyze_ip".

Definition can_analyze_domain (self : value) : M value :=
  has_callable self "analyze_domain".

Definition prepare_analysis_report_dictionary (self : value) : M value :=
  pv ← load_attr self "plugin_version";
  now ← datetime_now;
  let result : gmap string value :=
    <["analysis_date" := now]> (<["plugin_version" := pv]> ∅) in
  sv ← load_attr self "system_version";
  match sv with
  | VNone => mret (VDict result)
  | _ =>
      sv' ← load_attr self "system_version";
      mret (VDict (<["system_version" := sv']> result))
  end.

Definition not_implemented : exn :=
  NotImplementedError "This method is not implemented.".

(** The placeholders of the five mixins. *)
Definition FileAnalysisMixin_analyze_file (self file_path : value) : M value :=
  raise not_implemented.

Definition URLAnalysisMixin_analyze_url (self url : value) : M value :=
  raise not_implemented.

Definition IPAnalysisMixin_analyze_ip (self ip : value) : M value :=
  raise not_implemented.

Definition StringAnalysisMixin_analyze_string (self string : value) : M value :=
  raise not_implemented.

Definition DomainAnalysisMixin_analyze_domain (self domain : value) : M value :=
  raise not_implemented.

(** *** The classes of the module *)

(** The root of every hierarchy.  Its dunder attributes are not listed: the
    code looks up none of them by name, and instantiation treats the
    inherited [object.__init__] on its own. *)
Definition object_ : class := Class "object" [] ∅.

Definition AnalysisPlugin : class :=
  Class "AnalysisPlugin" [object_]
    (list_to_map
       [("__init__", VFunc Fn_AnalysisPlugin_init);
        ("can_analyze_file", VFunc Fn_can_analyze_file);
        ("can_analyze_url", VFunc Fn_can_analyze_url);
        ("can_analyze_ip", VFunc Fn_can_analyze_ip);
        ("can_analyze_domain", VFunc Fn_can_analyze_domain);
        ("prepare_analysis_report_dictionary",
         VFunc Fn_prepare_analysis_report_dictionary)]).

Definition FileAnalysisMixin : class :=
  Class "FileAnalysisMixin" [object_]
    {[ "analyze_file" := VFunc Fn_FileAnalysisMixin_analyze_file ]}.

Definition URLAnalysisMixin : class :=
  Class "URLAnalysisMixin" [object_]
    {[ "analyze_url" := VFunc Fn_URLAnalysisMixin_analyze_url ]}.

Definition IPAnalysisMixin : class :=
  Class "IPAnalysisMixin" [object_]
    {[ "analyze_ip" := VFunc Fn_IPAnalysisMixin_analyze_ip ]}.

Definition StringAnalysisMixin : class :=
  Class "StringAnalysisMixin" [object_]
    {[ "analyze_string" := VFunc Fn_StringAnalysisMixin_analyze_string ]}.

Definition DomainAnalysisMixin : class :=
  Class "DomainAnalysisMixin" [object_]
    {[ "analyze_domain" := VFunc Fn_DomainAnalysisMixin_analyze_domain ]}.

Definition AnalysisPluginFile : class :=
  Class "AnalysisPluginFile" [AnalysisPlugin; FileAnalysisMixin] ∅.

Definition AnalysisPluginURL : class :=
  Class "AnalysisPluginURL" [AnalysisPlugin; URLAnalysisMixin] ∅.

Definition AnalysisPluginIP : class :=
  Class "AnalysisPluginIP" [AnalysisPlugin; IPAnalysisMixin] ∅.

Definition AnalysisPluginDomain : class :=
  Class "AnalysisPluginDomain" [AnalysisPlugin; DomainAnalysisMixin] ∅.

Definition AnalysisPluginString : class :=
  Class "AnalysisPluginString" [AnalysisPlugin; StringAnalysisMixin] ∅.

(** *** Calling *)

(** The code of plugin authors: what [Fn_user n] does when applied to its
    arguments, given the clock and the heap. *)
Class UserCode := {
  user_fn : nat -> list value -> Z -> heap -> result value * heap
}.

Section Calling.
Context `{UserCode}.

Definition run_user (id : nat) (args : list value) : M value :=
  fun st =>
    let '(r, h') := user_fn id args (st_clock st) (st_heap st) in
    (r, State h' (st_clock st) (st_handlers st) (st_events st)).

(** Applying a function object to positional arguments; a wrong number of
    arguments is a [TypeError]. *)
Definition run_func (f : func) (args : list value) : M value :=
  match f, args with
  | Fn_AnalysisPlugin_init, [self; pv] => __init__ self pv VNone
  | Fn_AnalysisPlugin_init, [self; pv; sv] => __init__ self pv sv
  | Fn_can_analyze_file, [self] => can_analyze_file self
  | Fn_can_analyze_url, [self] => can_analyze_url self
  | Fn_can_analyze_ip, [self] => can_analyze_ip self
  | Fn_can_analyze_domain, [self] => can_analyze_domain self
  | Fn_prepare_analysis_report_dictionary, [self] =>
      prepare_analysis_report_dictionary self
  | Fn_FileAnalysisMixin_analyze_file, [self; x] => FileAnalysisMixin_analyze_file self x
  | Fn_URLAnalysisMixin_analyze_url, [self; x] => URLAnalysisMixin_analyze_url self x
  | Fn_IPAnalysisMixin_analyze_ip, [self; x] => IPAnalysisMixin_analyze_ip self x
  | Fn_StringAnalysisMixin_analyze_string, [self; x] =>
      StringAnalysisMixin_analyze_string self x
  | Fn_DomainAnalysisMixin_analyze_domain, [self; x] =>
      DomainAnalysisMixin_analyze_domain self x
  | Fn_user id, _ => run_user id args
  | _, _ => raise TypeError
  end.

(** [v(args...)] *)
Definition call_value (v : value) (args : list value) : M value :=
  match v with
  | VFunc f => run_func f args
  | VMethod f l => run_func f (VRef l :: args)
  | VRef l =>
      h ← get_heap;
      match h !! l with
      | Some o =>
          match mro_lookup (ob_mro o) "__call__" with
          | Some (VFunc f) => run_func f (VRef l :: args)
          | Some (VMethod f l') => run_func f (VRef l' :: args)
          | _ => raise TypeError
          end
      | None => raise TypeError
      end
  | _ => raise TypeError
  end.

(** [recv.name(args...)]: look the attribute up, then call it. *)
Definition call_method (recv : value) (name : string) (args : list value) : M value :=
  f ← load_attr recv name;
  emit (EvCall name args);;
  call_value f args.

(** [c(args...)] for a class [c]: a new instance, initialised by the first
    [__init__] on the [__mro__] ([object.__init__] takes no argument). *)
Definition instantiate (c : class) (args : list value) : M value :=
  match mro c with
  | None => raise TypeError
  | Some m =>
      h ← get_heap;
      let l : loc := length h in
      set_heap (h ++ [Object m ∅])%list;;
      match mro_lookup m "__init__" with
      | None =>
          match args with
          | [] => mret (VRef l)
          | _ => raise TypeError
          end
      | Some init =>
          r ← call_value (bind_method l init) args;
          match r with
          | VNone => mret (VRef l)
          | _ => raise TypeError
          end
      end
  end.

End Calling.

End analysis_plugin.

Import analysis_plugin.

(** ** __init__.py *)

Module package_init.

(** The names the two [from .analysis_plugin import ...] statements bind in
    the package. *)
Definition imported : list (string * class) :=
  [("AnalysisPlugin", AnalysisPlugin);
   ("AnalysisPluginDomain", AnalysisPluginDomain);
   ("AnalysisPluginFile", AnalysisPluginFile);
   ("AnalysisPluginIP", AnalysisPluginIP);
   ("AnalysisPluginURL", AnalysisPluginURL);
   ("DomainAnalysisMixin", DomainAnalysisMixin);
   ("FileAnalysisMixin", FileAnalysisMixin);
   ("IPAnalysisMixin", IPAnalysisMixin);
   ("URLAnalysisMixin", URLAnalysisMixin);
   ("AnalysisPluginString", AnalysisPluginString);
   ("StringAnalysisMixin", StringAnalysisMixin)].

Definition namespace : gmap string class := list_to_map imported.

(** The list as written: no comma follows ['URLAnalysisMixin'], and two
    string literals side by side are one string. *)
Definition __all__ : list string :=
  ["AnalysisPlugin";
   "AnalysisPluginDomain";
   "AnalysisPluginFile";
   "AnalysisPluginIP";
   "AnalysisPluginURL";
   "DomainAnalysisMixin";
   "FileAnalysisMixin";
   "IPAnalysisMixin";
   "URLAnalysisMixin" +:+ "AnalysisPluginString";
   "StringAnalysisMixin"].

(** [from package import *] for a package that defines [__all__]: every
    listed name is looked up as an attribute, in order. *)
Fixpoint import_all (ns : gmap string class) (names : list string)
    : result (list (string * class)) :=
  match names with
  | [] => Ok []
  | name :: rest =>
      match ns !! name with
      | None => Raise AttributeError
      | Some c =>
          match import_all ns rest with
          | Ok bound => Ok ((name, c) :: bound)
          | Raise e => Raise e
          end
      end
  end.

Definition import_star : result (list (string * class)) :=
  import_all namespace __all__.

End package_init.

(** ** command_line_client.py *)

Module command_line_client.


(** The namespace returned by [parse_args()]: one attribute per option that
    stores a value; an option that was not given is [None], except
    [log_level], whose default is ['WARNING']. *)
Record Namespace := {
  log_file : option string;
  log_level : string;
  analysis_module : option string;
  file : option string;
  url : option string;
  ip : option string;
  domain : option string
}.

(** What a module binds a name to. *)
Inductive entity :=
| EClass (c : class)
| EValue (v : value).

(** The namespace of an imported module. *)
Abbreviation module_ns := (gmap string entity).

(** The interpreter and the machine around the client: the argument parser
    run on the command line (it ends the process itself on [--help],
    [--version] and on usage errors), the import system, and whether a log
    file can be opened for appending ([OSError] when not). *)
Class Host := {
  parse_args : list string -> result Namespace;
  import_module : string -> result module_ns;
  open_log_file : string -> bool
}.

(** *** The logging module *)

Definition DEBUG : Z := 10.
Definition INFO : Z := 20.
Definition WARNING : Z := 30.
Definition ERROR : Z := 40.
Definition CRITICAL : Z := 50.

Definition upper_ascii (a : ascii) : ascii :=
  let n := nat_of_ascii a in
  if andb (Nat.leb 97 n) (Nat.leb n 122) then ascii_of_nat (n - 32) else a.

(** [s.upper()] on ASCII text. *)
Fixpoint upper (s : string) : string :=
  match s with
  | EmptyString => EmptyString
  | String a s' => String (upper_ascii a) (upper s')
  end.

(** The level names the logging module knows. *)
Definition name_to_level (name : string) : option Z :=
  if String.eqb name "CRITICAL" then Some CRITICAL
  else if String.eqb name "FATAL" then Some CRITICAL
  else if String.eqb name "ERROR" then Some ERROR
  else if String.eqb name "WARN" then Some WARNING
  else if String.eqb name "WARNING" then Some WARNING
  else if String.eqb name "INFO" then Some INFO
  else if String.eqb name "DEBUG" then Some DEBUG
  else if String.eqb name "NOTSET" then Some 0
  else None.

(** [getattr(logging, name, None)] for an upper-case [name]: the level
    constants, the format string [BASIC_FORMAT], and nothing else. *)
Definition logging_getattr (name : string) : value :=
  match name_to_level name with
  | Some n => VInt n
  | None =>
      if String.eqb name "BASIC_FORMAT"
      then VStr "%(levelname)s:%(name)s:%(message)s"
      else VNone
  end.

(** The check [Handler.setLevel] makes on its argument. *)
Definition check_level (v : value) : result Z :=
  match v with
  | VInt n => Ok n
  | VStr s =>
      match name_to_level s with
      | Some n => Ok n
      | None => Raise ValueError
      end
  | _ => Raise TypeError
  end.

(** A call on the root logger, whose own level is [DEBUG]: every handler
    whose threshold the record reaches writes it. *)
Definition log (level : Z) (msg : string) : M unit :=
  fun st =>
    let written :=
      flat_map (fun hd => if Z.leb (h_level hd) level && Z.leb DEBUG level
                          then [EvLog (h_sink hd) level msg] else [])
               (st_handlers st) in
    (Ok tt, State (st_heap st) (st_clock st) (st_handlers st)
                  (st_events st ++ written)).

Definition given (o : option string) : bool :=
  match o with
  | Some s => truthy (VStr s)
  | None => false
  end.

Definition lift {A} (r : result A) : M A := fun st => (r, st).

Section Client.
Context `{UserCode} `{Host}.

Definition _setup_argparser (argv : list string) : M Namespace :=
  lift (parse_args argv).

Definition _setup_logging (args : Namespace) : M unit :=
  let level := logging_getattr (upper (log_level args)) in
  add_handler (Handler Console INFO);;
  match log_file args with
  | Some path =>
      if truthy (VStr path) then
        if open_log_file path then
          match check_level level with
          | Ok n => add_handler (Handler (LogFile path) n)
          | Raise e => raise e
          end
        else raise OSError
      else mret tt
  | None => mret tt
  end.

Definition _load_analysis_class_from_module (args : Namespace) : M entity :=
  match analysis_module args with
  | None =>
      log ERROR "No analysis module specified. Terminating.";;
      raise (SystemExit 1)
  | Some analysis_module_name =>
      log INFO ("Initializing analysis module: " +:+ analysis_module_name);;
      match import_module analysis_module_name with
      | Ok module =>
          match module !! "analysis_class" with
          | Some c => mret c
          | None =>
              log ERROR ("No analysis class found in module "
                         +:+ analysis_module_name +:+ ". Terminating.");;
              raise AttributeError
          end
      | Raise ImportError =>
          log ERROR ("Module " +:+ analysis_module_name
                     +:+ " can not be imported. Terminating.");;
          raise ImportError
      | Raise AttributeError =>
          log ERROR ("No analysis class found in module "
                     +:+ analysis_module_name +:+ ". Terminating.");;
          raise AttributeError
      | Raise e => raise e
      end
  end.

Definition _analyze_file (analyzer : value) (file_path : string) : M value :=
  ok ← call_method analyzer "can_analyze_file" [];
  if truthy ok then
    log INFO ("Analyzing file: " +:+ file_path);;
    call_method analyzer "analyze_file" [VStr file_path]
  else
    log WARNING "File analysis requested, but analysis module can not analyze files. Skipping.";;
    mret VNone.

Definition _analyze_url (analyzer : value) (url : string) : M value :=
  ok ← call_method analyzer "can_analyze_url" [];
  if truthy ok then
    log INFO ("Analyzing URL: " +:+ url);;
    call_method analyzer "analyze_url" [VStr url]
  else
    log WARNING "URL analysis requested, but analysis module can not analyze URLs. Skipping.";;
    mret VNone.

Definition _analyze_ip (analyzer : value) (ip : string) : M value :=
  ok ← call_method analyzer "can_analyze_ip" [];
  if truthy ok then
    log INFO ("Analyzing IP: " +:+ ip);;
    call_method analyzer "analyze_ip" [VStr ip]
  else
    log WARNING "IP analysis requested, but analysis module can not analyze IPs. Skipping.";;
    mret VNone.

Definition _analyze_domain (analyzer : value) (domain : string) : M value :=
  ok ← call_method analyzer "can_analyze_domain" [];
  if truthy ok then
    log INFO ("Analyzing domain: " +:+ domain);;
    call_method analyzer "analyze_domain" [VStr domain]
  else
    log WARNING "Domain analysis requested, but analysis module can not analyze domains. Skipping.";;
    mret VNone.

Definition _pretty_print (object : value) : M unit :=
  emit (EvPrint object).

(** [analysis_class()] *)
Definition construct (analysis_class : entity) : M value :=
  match analysis_class with
  | EClass c => instantiate c []
  | EValue v => call_value v []
  end.

(** One [if x: result = step(analyzer, x); _pretty_print(result)] block. *)
Definition requested (x : option string) (step : string -> M value) : M unit :=
  match x with
  | Some s =>
      if truthy (VStr s) then result ← step s; _pretty_print result
      else mret tt
  | None => mret tt
  end.

Definition _analyze (args : Namespace) (analysis_class : entity) : M unit :=
  analyzer ← construct analysis_class;
  requested (file args) (_analyze_file analyzer);;
  requested (url args) (_analyze_url analyzer);;
  requested (ip args) (_analyze_ip analyzer);;
  requested (domain args) (_analyze_domain analyzer).

Definition _main (argv : list string) : M unit :=
  args ← _setup_argparser argv;
  _setup_logging args;;
  analysis_class ← _load_analysis_class_from_module args;
  _analyze args analysis_class;;
  raise (SystemExit 0).

End Client.

(** The status with which the process ends: the code given to [exit], and 1
    when any other exception reaches the top. *)
Definition exit_status {A} (r : result A) : Z :=
  match r with
  | Ok _ => 0
  | Raise (SystemExit code) => code
  | Raise _ => 1
  end.

End command_line_client.

Import command_line_client.

(** ** A sample plugin package

    Two plugins as an author would write them, used to run the definitions
    on concrete inputs.

    [class FilePlugin(AnalysisPluginFile)] defines only
    [__init__(self)], which calls [super().__init__("1.0")]; it keeps the
    placeholder [analyze_file].

    [class UrlPlugin(AnalysisPluginURL)] defines [__init__(self)], which
    calls [super().__init__("2.1", "db-7")], and [analyze_url(self, url)],
    which returns the prepared report with the key ["url"] added. *)

Module sample.

Definition on_heap {A} (m : M A) (clock : Z) (h : heap) : result A * heap :=
  let '(r, st) := m (State h clock [] []) in (r, st_heap st).

#[global] Instance code : UserCode := {
  user_fn id args clock h :=
    match id, args with
    | O, [self] => on_heap (__init__ self (VStr "1.0") VNone) clock h
    | 1%nat, [self] => on_heap (__init__ self (VStr "2.1") (VStr "db-7")) clock h
    | 2%nat, [self; u] =>
        on_heap (r ← prepare_analysis_report_dictionary self;
                 match r with
                 | VDict d => mret (VDict (<["url" := u]> d))
                 | _ => raise TypeError
                 end) clock h
    | _, _ => (Raise TypeError, h)
    end
}.

Definition FilePlugin : class :=
  Class "FilePlugin" [AnalysisPluginFile] {[ "__init__" := VFunc (Fn_user 0) ]}.

Definition UrlPlugin : class :=
  Class "UrlPlugin" [AnalysisPluginURL]
    (list_to_map [("__init__", VFunc (Fn_user 1)); ("analyze_url", VFunc (Fn_user 2))]).

Definition no_args : Namespace :=
  {| log_file := None; log_level := "WARNING"; analysis_module := None;
     file := None; url := None; ip := None; domain := None |}.

#[global] Instance host : Host := {
  parse_args argv :=
    match argv with
    | [] => Ok no_args
    | ["-a"; m] =>
        Ok {| log_file := None; log_level := "WARNING"; analysis_module := Some m;
              file := None; url := None; ip := None; domain := None |}
    | ["-a"; m; "-f"; f] =>
        Ok {| log_file := None; log_level := "WARNING"; analysis_module := Some m;
              file := Some f; url := None; ip := None; domain := None |}
    | ["-a"; m; "-f"; f; "-u"; u; "-i"; i; "-d"; d] =>
        Ok {| log_file := None; log_level := "WARNING"; analysis_module := Some m;
              file := Some f; url := Some u; ip := Some i; domain := Some d |}
    | _ => Raise (SystemExit 2)
    end;
  import_module name :=
    if String.eqb name "file_plugin" then Ok {[ "analysis_class" := EClass FilePlugin ]}
    else if String.eqb name "url_plugin" then Ok {[ "analysis_class" := EClass UrlPlugin ]}
    else if String.eqb name "empty_module" then Ok ∅
    else Raise ImportError;
  open_log_file _ := true
}.

(** A process that has just started: nothing on the heap, no handler. *)
Definition boot : state := State [] 1700000000 [] [].

(** [AnalysisPluginFile("1.0")], made in a fresh process: the instance and
    the state it lives in. *)
Definition file_plugin : value := VRef 0.

Definition file_plugin_state : state :=
  snd (instantiate AnalysisPluginFile [VStr "1.0"] boot).

(** [AnalysisPlugin("1.0", "")]: an empty but present system version. *)
Definition blank_system_state : state :=
  snd (instantiate AnalysisPlugin [VStr "1.0"; VStr ""] boot).

(** [UrlPlugin()], made in a fresh process. *)
Definition url_plugin : value := VRef 0.

Definition url_plugin_state : state := snd (instantiate UrlPlugin [] boot).

(** Command lines for the two sample modules. *)
Definition file_plugin_argv : list string :=
  ["-a"; "file_plugin"; "-f"; "/tmp/x"].

Definition url_plugin_argv : list string :=
  ["-a"; "url_plugin"; "-f"; "/tmp/x"; "-u"; "http://example.org";
   "-i"; "192.0.2.1"; "-d"; "example.org"].

Definition url_plugin_args : Namespace :=
  {| log_file := None; log_level := "WARNING"; analysis_module := Some "url_plugin";
     file := Some "/tmp/x"; url := Some "http://example.org";
     ip := Some "192.0.2.1"; domain := Some "example.org" |}.

(** A host whose import system fails in another way: the empty module name
    is a [ValueError], every other name an [ImportError]. *)
Definition other_host : Host := {|
  parse_args argv := Ok no_args;
  import_module name :=
    if String.eqb name "" then Raise ValueError else Raise ImportError;
  open_log_file _ := true
|}.

(** [--log_file /tmp/client.log --log_level debug] *)
Definition log_file_args : Namespace :=
  {| log_file := Some "/tmp/client.log"; log_level := "debug";
     analysis_module := None;
     file := None; url := None; ip := None; domain := None |}.

(** [--analysis-module url_plugin] and nothing to analyse. *)
Definition module_only_args : Namespace :=
  {| log_file := None; log_level := "WARNING"; analysis_module := Some "url_plugin";
     file := None; url := None; ip := None; domain := None |}.

(** [--analysis-module ""] *)
Definition empty_module_args : Namespace :=
  {| log_file := None; log_level := "WARNING"; analysis_module := Some "";
     file := None; url := None; ip := None; domain := None |}.

(** A class that has [analyze_file] and nothing of [AnalysisPlugin]. *)
Definition DuckPlugin : class :=
  Class "DuckPlugin" [object_] {[ "analyze_file" := VFunc (Fn_user 2) ]}.

Definition duck_state : state := snd (instantiate DuckPlugin [] boot).

End sample.

Import sample.

(** * Vocabulary of the statements *)

Module vocabulary.

(** The five kinds of analysis the package has a mixin for. *)
Inductive capability := CapFile | CapURL | CapIP | CapDomain | CapString.

(** The name of the analysis operation of a capability. *)
Definition operation_name (c : capability) : string :=
  match c with
  | CapFile => "analyze_file"
  | CapURL => "analyze_url"
  | CapIP => "analyze_ip"
  | CapDomain => "analyze_domain"
  | CapString => "analyze_string"
  end.

(** The name a caller uses to ask for a capability. *)
Definition query_name (c : capability) : string :=
  match c with
  | CapFile => "can_analyze_file"
  | CapURL => "can_analyze_url"
  | CapIP => "can_analyze_ip"
  | CapDomain => "can_analyze_domain"
  | CapString => "can_analyze_string"
  end.

(** The query [AnalysisPlugin] defines for a capability, when it defines
    one. *)
Definition base_query (c : capability) : option (value -> M value) :=
  match c with
  | CapFile => Some can_analyze_file
  | CapURL => Some can_analyze_url
  | CapIP => Some can_analyze_ip
  | CapDomain => Some can_analyze_domain
  | CapString => None
  end.

Definition placeholder (c : capability) : func :=
  match c with
  | CapFile => Fn_FileAnalysisMixin_analyze_file
  | CapURL => Fn_URLAnalysisMixin_analyze_url
  | CapIP => Fn_IPAnalysisMixin_analyze_ip
  | CapDomain => Fn_DomainAnalysisMixin_analyze_domain
  | CapString => Fn_StringAnalysisMixin_analyze_string
  end.

Definition convenience_class (c : capability) : class :=
  match c with
  | CapFile => AnalysisPluginFile
  | CapURL => AnalysisPluginURL
  | CapIP => AnalysisPluginIP
  | CapDomain => AnalysisPluginDomain
  | CapString => AnalysisPluginString
  end.

(** The mixin of a capability. *)
Definition mixin (c : capability) : class :=
  match c with
  | CapFile => FileAnalysisMixin
  | CapURL => URLAnalysisMixin
  | CapIP => IPAnalysisMixin
  | CapDomain => DomainAnalysisMixin
  | CapString => StringAnalysisMixin
  end.

(** The instance exposes a callable attribute of that name. *)
Definition exposes_callable (h : heap) (p : value) (name : string) : Prop :=
  exists a, getattr h p name = Some a /\ callable h a = true.

(** The report dictionary for given versions and date. *)
Definition report_of (pv sv : value) (date : Z) : gmap string value :=
  let base : gmap string value :=
    <["analysis_date" := VDatetime date]> (<["plugin_version" := pv]> ∅) in
  match sv with
  | VNone => base
  | _ => <["system_version" := sv]> base
  end.

(** The instance dictionary [AnalysisPlugin.__init__] leaves behind. *)
Definition versions (pv sv : value) : gmap string value :=
  <["system_version" := sv]> (<["plugin_version" := pv]> ∅).

(** The arguments of a constructor call that passes [system_version] or
    leaves it out. *)
Definition ctor_args (pv : value) (sv : option value) : list value :=
  match sv with
  | Some v => [pv; v]
  | None => [pv]
  end.

Definition with_heap (st : state) (h : heap) : state :=
  State h (st_clock st) (st_handlers st) (st_events st).

Definition convenience_mro (c : capability) : list class :=
  default [] (mro (convenience_class c)).

(** The function object behind a query name on [AnalysisPlugin]. *)
Definition query_func (c : capability) : option func :=
  match c with
  | CapFile => Some Fn_can_analyze_file
  | CapURL => Some Fn_can_analyze_url
  | CapIP => Some Fn_can_analyze_ip
  | CapDomain => Some Fn_can_analyze_domain
  | CapString => None
  end.

Definition capability_eqb (a b : capability) : bool :=
  match a, b with
  | CapFile, CapFile | CapURL, CapURL | CapIP, CapIP
  | CapDomain, CapDomain | CapString, CapString => true
  | _, _ => false
  end.

(** C2 as the specification words it: an operation the plugin does not
    provide fails with [NotImplementedError]. *)
Definition missing_operation_not_implemented `{UserCode}
    (c : capability) (self x : value) (st : state) : Prop :=
  getattr (st_heap st) self (operation_name c) = None ->
  exists msg, fst (call_method self (operation_name c) [x] st)
              = Raise (NotImplementedError msg).

(** C3 as the specification words it: the report has the key
    [system_version] exactly when the constructor was given one. *)
Definition system_version_iff_supplied `{UserCode}
    (c : class) (pv : value) (sv : option value) (st : state) : Prop :=
  exists p st' d,
    instantiate c (ctor_args pv sv) st = (Ok p, st') /\
    fst (prepare_analysis_report_dictionary p st') = Ok (VDict d) /\
    (is_Some (d !! "system_version") <-> is_Some sv).

(** The operations [AnalysisPlugin] defines for use after construction. *)
Definition base_operations : list (value -> M value) :=
  [can_analyze_file; can_analyze_url; can_analyze_ip; can_analyze_domain;
   prepare_analysis_report_dictionary].

(** Two states with the same output so far, the same log handlers and the
    same clock: what code that only touches the heap leaves alone. *)
Definition same_io (st st' : state) : Prop :=
  st_events st' = st_events st /\
  st_handlers st' = st_handlers st /\
  st_clock st' = st_clock st.

(** A computation that writes nothing and installs no handler. *)
Definition quiet {A} (m : M A) : Prop := forall st, same_io st (snd (m st)).

(** The attribute of the parsed command line that holds the input of a
    capability; there is none for strings. *)
Definition input_of (args : Namespace) (c : capability) : option string :=
  match c with
  | CapFile => file args
  | CapURL => url args
  | CapIP => ip args
  | CapDomain => domain args
  | CapString => None
  end.

(** The text that goes before the input in the information record. *)
Definition info_prefix (c : capability) : string :=
  match c with
  | CapFile => "Analyzing file: "
  | CapURL => "Analyzing URL: "
  | CapIP => "Analyzing IP: "
  | CapDomain => "Analyzing domain: "
  | CapString => ""
  end.

(** The warning logged when the analyzer cannot do what was asked. *)
Definition skip_warning (c : capability) : string :=
  match c with
  | CapFile => "File analysis requested, but analysis module can not analyze files. Skipping."
  | CapURL => "URL analysis requested, but analysis module can not analyze URLs. Skipping."
  | CapIP => "IP analysis requested, but analysis module can not analyze IPs. Skipping."
  | CapDomain => "Domain analysis requested, but analysis module can not analyze domains. Skipping."
  | CapString => ""
  end.

(** The records a call on the logger makes the handlers write. *)
Definition records (handlers : list handler) (level : Z) (msg : string) : list event :=
  flat_map (fun hd => if Z.leb (h_level hd) level && Z.leb DEBUG level
                      then [EvLog (h_sink hd) level msg] else [])
           handlers.

Definition with_events (st : state) (evs : list event) : state :=
  State (st_heap st) (st_clock st) (st_handlers st) (st_events st ++ evs).

(** The events that are invocations of an analysis operation. *)
Definition is_operation_call (e : event) : bool :=
  match e with
  | EvCall name _ =>
      existsb (String.eqb name)
        ["analyze_file"; "analyze_url"; "analyze_ip"; "analyze_domain"; "analyze_string"]
  | _ => false
  end.

Definition operation_calls (evs : list event) : list event :=
  List.filter is_operation_call evs.

(** The events of one block of [_analyze] for input [s]: some events that
    are no invocation, then nothing more, or the invocation of the operation
    on [s] as the last event, or that invocation and the print of a value
    right after it. *)
Definition block_shape (c : capability) (s : string) (b : list event) : Prop :=
  exists pre,
    operation_calls pre = [] /\
    (b = pre \/
     b = pre ++ [EvCall (operation_name c) [VStr s]] \/
     exists r, b = pre ++ [EvCall (operation_name c) [VStr s]; EvPrint r]).

(** An input that was not given leaves no event. *)
Definition block (c : capability) (x : option string) (b : list event) : Prop :=
  match x with
  | Some s => if truthy (VStr s) then block_shape c s b else b = []
  | None => b = []
  end.

(** The events that print a value. *)
Definition is_print (e : event) : bool :=
  match e with
  | EvPrint _ => true
  | _ => false
  end.

Definition prints (evs : list event) : list event := List.filter is_print evs.

(** The events that are log records. *)
Definition is_log (e : event) : bool :=
  match e with
  | EvLog _ _ _ => true
  | _ => false
  end.

(** How many of the four inputs pass the test [if x:]. *)
Definition inputs_given (args : Namespace) : nat :=
  length (List.filter given [file args; url args; ip args; domain args]).

(** Text of ASCII characters only: where [upper] is [str.upper]. *)
Definition ascii_text (s : string) : bool :=
  forallb (fun a => Nat.ltb (nat_of_ascii a) 128) (list_ascii_of_string s).

(** The records of one logger call once logging is set up for [args] in a
    process that had no handler: the console first, then the log file when
    there is one and the record reaches its level. *)
Definition routed (args : Namespace) (level : Z) (msg : string) : list event :=
  EvLog Console level msg ::
  match log_file args with
  | Some path =>
      if truthy (VStr path) then
        match name_to_level (upper (log_level args)) with
        | Some n => if Z.leb n level then [EvLog (LogFile path) level msg] else []
        | None => []
        end
      else []
  | None => []
  end.

Section Client.
Context `{UserCode} `{Host}.

(** The function of the client that serves a capability; there is none for
    strings. *)
Definition client_step (c : capability) : option (value -> string -> M value) :=
  match c with
  | CapFile => Some _analyze_file
  | CapURL => Some _analyze_url
  | CapIP => Some _analyze_ip
  | CapDomain => Some _analyze_domain
  | CapString => None
  end.

(** The four functions are one text with different names in it. *)
Definition analyze_step (c : capability) (analyzer : value) (x : string) : M value :=
  ok ← call_method analyzer (query_name c) [];
  if truthy ok then
    log INFO (info_prefix c +:+ x);;
    call_method analyzer (operation_name c) [VStr x]
  else
    log WARNING (skip_warning c);;
    mret VNone.

(** The module cannot be imported, or has no [analysis_class]. *)
Definition resolution_fails (name : string) : Prop :=
  import_module name = Raise ImportError \/
  import_module name = Raise AttributeError \/
  exists m, import_module name = Ok m /\ m !! "analysis_class" = None.

(** The same as a test: the import succeeds and the name is bound. *)
Definition resolves (name : string) : bool :=
  match import_module name with
  | Ok m => match m !! "analysis_class" with Some _ => true | None => false end
  | Raise _ => false
  end.

(** C5 as the specification words it: status 1 without a module, non-zero
    when the module or the class cannot be resolved, 0 in every other
    case. *)
Definition exit_status_as_specified (argv : list string) (st : state) : Prop :=
  forall args,
    parse_args argv = Ok args ->
    match analysis_module args with
    | None => exit_status (fst (_main argv st)) = 1
    | Some name =>
        if resolves name
        then exit_status (fst (_main argv st)) = 0
        else exit_status (fst (_main argv st)) <> 0
    end.

End Client.

End vocabulary.

Import vocabulary.

(** * Properties of the plugin contract *)

Module plugin_contract.

Ltac run :=
  unfold mbind, M_bind, bind, mret, M_ret, ret, raise, get_heap, set_heap,
    load_attr, datetime_now, emit; simpl.

(** *** Attribute lookup *)

Lemma hasattr_getattr h v name :
  hasattr h v name = true <-> is_Some (getattr h v name).
Proof.
  unfold hasattr. destruct (getattr h v name); split; intros Hx; eauto.
  - discriminate.
  - destruct Hx; discriminate.
Qed.

Lemma getattr_instance h l o name a :
  h !! l = Some o -> ob_dict o !! name = Some a ->
  getattr h (VRef l) name = Some a.
Proof. intros Hl Hd. simpl. by rewrite Hl, Hd. Qed.

Lemma getattr_inherited h l o name :
  h !! l = Some o -> ob_dict o !! name = None ->
  getattr h (VRef l) name = bind_method l <$> mro_lookup (ob_mro o) name.
Proof. intros Hl Hd. simpl. by rewrite Hl, Hd. Qed.

Lemma callable_bind_method h l f : callable h (bind_method l (VFunc f)) = true.
Proof. reflexivity. Qed.

(** *** The queries *)

Lemma has_callable_run self name st :
  has_callable self name st =
  (Ok (VBool match getattr (st_heap st) self name with
             | Some a => callable (st_heap st) a
             | None => false
             end), st).
Proof.
  unfold has_callable, hasattr. run.
  destruct (getattr (st_heap st) self name) eqn:E; simpl; rewrite ?E; reflexivity.
Qed.

Lemma has_callable_iff self name st :
  exists b, has_callable self name st = (Ok (VBool b), st) /\
            (b = true <-> exposes_callable (st_heap st) self name).
Proof.
  rewrite has_callable_run. eexists; split; [reflexivity|].
  unfold exposes_callable.
  destruct (getattr (st_heap st) self name) as [a|]; split.
  - intros Hc. eauto.
  - intros (a' & Ha & Hc). by injection Ha as ->.
  - discriminate.
  - intros (a' & Ha & _). discriminate.
Qed.

Lemma base_query_run c q self st :
  base_query c = Some q -> q self st = has_callable self (operation_name c) st.
Proof. destruct c; simpl; intros Hq; inversion Hq; reflexivity. Qed.

(** *** Construction *)

Lemma mro_AnalysisPlugin : mro AnalysisPlugin = Some [AnalysisPlugin; object_].
Proof. by vm_compute. Qed.

Example mro_AnalysisPluginFile :
  List.map c_name <$> mro AnalysisPluginFile
  = Some ["AnalysisPluginFile"; "AnalysisPlugin"; "FileAnalysisMixin"; "object"].
Proof. reflexivity. Qed.

(** A base listed before its own subclass has no linearisation. *)
Example mro_inconsistent :
  mro (Class "Broken" [AnalysisPlugin; AnalysisPluginFile] ∅) = None.
Proof. reflexivity. Qed.

Lemma init_run l o pv sv st :
  st_heap st !! l = Some o ->
  __init__ (VRef l) pv sv st =
  (Ok VNone,
   with_heap st (<[l := Object (ob_mro o)
                          (<["system_version" := sv]>
                             (<["plugin_version" := pv]> (ob_dict o)))]> (st_heap st))).
Proof.
  intros Hl. unfold __init__, store_attr. run. rewrite Hl. simpl.
  rewrite list_lookup_insert_eq by (by eapply lookup_lt_Some).
  simpl. by rewrite list_insert_insert_eq.
Qed.

(** Instantiating a class whose [__init__] is the one of [AnalysisPlugin]. *)
Lemma instantiate_run `{UserCode} c m pv sv st :
  mro c = Some m ->
  mro_lookup m "__init__" = Some (VFunc Fn_AnalysisPlugin_init) ->
  instantiate c (ctor_args pv sv) st =
  (Ok (VRef (length (st_heap st))),
   with_heap st (st_heap st ++ [Object m (versions pv (default VNone sv))])).
Proof.
  intros Hm Hi. unfold instantiate. rewrite Hm. run. rewrite Hi. simpl.
  set (l := length (st_heap st)).
  set (st1 := State (st_heap st ++ [Object m ∅]) _ _ _).
  assert (Hl : st_heap st1 !! l = Some (Object m ∅)).
  { subst st1 l. simpl. by rewrite list_lookup_middle. }
  assert (Hfin : <[l := Object m (versions pv (default VNone sv))]>
                   (st_heap st ++ [Object m ∅]) =
                 st_heap st ++ [Object m (versions pv (default VNone sv))]).
  { subst l. rewrite insert_app_r_alt by lia. by rewrite Nat.sub_diag. }
  destruct sv as [sv|]; simpl; rewrite (init_run _ _ _ _ _ Hl); simpl;
    unfold with_heap; simpl; f_equal; f_equal; exact Hfin.
Qed.

(** What [getattr] finds on an instance that was just made. *)
Lemma getattr_fresh (h : heap) m d name :
  getattr (h ++ [Object m d]) (VRef (length h)) name =
  match d !! name with
  | Some a => Some a
  | None => bind_method (length h) <$> mro_lookup m name
  end.
Proof. simpl. by rewrite list_lookup_middle. Qed.

Lemma versions_lookup_other pv sv name :
  name <> "plugin_version" -> name <> "system_version" ->
  versions pv sv !! name = None.
Proof.
  intros H1 H2. unfold versions.
  rewrite lookup_insert_ne by congruence.
  rewrite lookup_insert_ne by congruence.
  apply lookup_empty.
Qed.

(** *** Method calls *)

Lemma call_method_missing `{UserCode} recv name args st :
  getattr (st_heap st) recv name = None ->
  call_method recv name args st = (Raise AttributeError, st).
Proof. intros Hg. unfold call_method. run. by rewrite Hg. Qed.

Lemma call_method_found `{UserCode} recv name args st a :
  getattr (st_heap st) recv name = Some a ->
  call_method recv name args st =
  call_value a args (State (st_heap st) (st_clock st) (st_handlers st)
                           (st_events st ++ [EvCall name args])).
Proof. intros Hg. unfold call_method. run. by rewrite Hg. Qed.

(** *** Instances of the convenience classes *)

Lemma mro_convenience c : mro (convenience_class c) = Some (convenience_mro c).
Proof. destruct c; by vm_compute. Qed.

Lemma convenience_init c :
  mro_lookup (convenience_mro c) "__init__" = Some (VFunc Fn_AnalysisPlugin_init).
Proof. destruct c; by vm_compute. Qed.

Lemma convenience_operation c c' :
  mro_lookup (convenience_mro c) (operation_name c') =
  if capability_eqb c c' then Some (VFunc (placeholder c)) else None.
Proof. destruct c, c'; by vm_compute. Qed.

Lemma convenience_query c c' :
  mro_lookup (convenience_mro c) (query_name c') = VFunc <$> query_func c'.
Proof. destruct c, c'; by vm_compute. Qed.

Lemma operation_name_not_version c :
  operation_name c <> "plugin_version" /\ operation_name c <> "system_version".
Proof. destruct c; split; discriminate. Qed.

Lemma query_name_not_version c :
  query_name c <> "plugin_version" /\ query_name c <> "system_version".
Proof. destruct c; split; discriminate. Qed.

Lemma query_func_run `{UserCode} c f q self :
  query_func c = Some f -> base_query c = Some q -> run_func f [self] = q self.
Proof. destruct c; simpl; intros Hf Hq; inversion Hf; inversion Hq; reflexivity. Qed.

(** A new instance of a convenience class: where it lives and what it
    exposes. *)
Lemma convenience_instance `{UserCode} c pv sv st :
  let l := length (st_heap st) in
  let st' := with_heap st (st_heap st ++
               [Object (convenience_mro c) (versions pv (default VNone sv))]) in
  instantiate (convenience_class c) (ctor_args pv sv) st = (Ok (VRef l), st') /\
  (forall c', getattr (st_heap st') (VRef l) (operation_name c') =
              if capability_eqb c c' then Some (VMethod (placeholder c) l) else None) /\
  (forall c', getattr (st_heap st') (VRef l) (query_name c') =
              (fun f => VMethod f l) <$> query_func c').
Proof.
  intros l st'. split; [|split].
  - apply instantiate_run; [apply mro_convenience | apply convenience_init].
  - intros c'. subst st' l. simpl st_heap. rewrite getattr_fresh.
    destruct (operation_name_not_version c') as [H1 H2].
    rewrite versions_lookup_other by assumption.
    rewrite convenience_operation. by destruct (capability_eqb c c').
  - intros c'. subst st' l. simpl st_heap. rewrite getattr_fresh.
    destruct (query_name_not_version c') as [H1 H2].
    rewrite versions_lookup_other by assumption.
    rewrite convenience_query. by destruct (query_func c').
Qed.

(** *** The capability queries *)

(** C1.  Each of the four queries [AnalysisPlugin] defines answers [True]
    exactly when the instance exposes a callable attribute with the name of
    the operation, whatever the class of the instance.  For strings there
    is no query: an instance of [AnalysisPluginString] exposes a callable
    [analyze_string], and asking it [can_analyze_string()] raises
    [AttributeError]. *)
Theorem capability_query_iff_callable `{UserCode} :
  (forall c q self st,
      base_query c = Some q ->
      exists b, q self st = (Ok (VBool b), st) /\
                (b = true <-> exposes_callable (st_heap st) self (operation_name c))) /\
  base_query CapString = None /\
  (forall pv sv st,
      exists p st',
        instantiate AnalysisPluginString (ctor_args pv sv) st = (Ok p, st') /\
        exposes_callable (st_heap st') p (operation_name CapString) /\
        call_method p (query_name CapString) [] st' = (Raise AttributeError, st')).
Proof.
  split; [|split].
  - intros c q self st Hq. rewrite (base_query_run _ _ _ _ Hq).
    apply has_callable_iff.
  - reflexivity.
  - intros pv sv st.
    destruct (convenience_instance CapString pv sv st) as (Hi & Hop & Hq).
    eexists _, _. split; [exact Hi|]. split.
    + eexists. split; [apply (Hop CapString)|reflexivity].
    + apply call_method_missing. apply (Hq CapString).
Qed.

(** C4.  An instance of [AnalysisPluginFile] answers [False] to the URL, IP
    and domain queries; the string query does not exist, so asking it
    raises [AttributeError] instead of answering [False]. *)
Theorem file_plugin_other_queries `{UserCode} pv sv st :
  exists p st',
    instantiate AnalysisPluginFile (ctor_args pv sv) st = (Ok p, st') /\
    fst (call_method p "can_analyze_url" [] st') = Ok (VBool false) /\
    fst (call_method p "can_analyze_ip" [] st') = Ok (VBool false) /\
    fst (call_method p "can_analyze_domain" [] st') = Ok (VBool false) /\
    fst (call_method p "can_analyze_string" [] st') = Raise AttributeError.
Proof.
  destruct (convenience_instance CapFile pv sv st) as (Hi & Hop & Hq).
  eexists _, _. split; [exact Hi|].
  assert (Hfalse : forall c f q,
             query_func c = Some f -> base_query c = Some q ->
             capability_eqb CapFile c = false ->
             fst (call_method (VRef (length (st_heap st))) (query_name c) []
                    (with_heap st (st_heap st ++
                       [Object (convenience_mro CapFile) (versions pv (default VNone sv))])))
             = Ok (VBool false)).
  { intros c f q Hf Hb Hne.
    erewrite call_method_found; [|rewrite (Hq c), Hf; reflexivity].
    simpl call_value. rewrite (query_func_run c f q _ Hf Hb).
    rewrite (base_query_run _ _ _ _ Hb), has_callable_run. simpl st_heap.
    specialize (Hop c). simpl st_heap in Hop. rewrite Hop, Hne. reflexivity. }
  repeat split.
  - exact (Hfalse CapURL _ _ eq_refl eq_refl eq_refl).
  - exact (Hfalse CapIP _ _ eq_refl eq_refl eq_refl).
  - exact (Hfalse CapDomain _ _ eq_refl eq_refl eq_refl).
  - rewrite call_method_missing; [reflexivity|]. apply (Hq CapString).
Qed.

(** *** Invoking an operation the plugin does not have *)

(** C2, amended.  When the plugin has no attribute of that name, invoking
    the operation raises [AttributeError] and changes nothing, and the query
    [AnalysisPlugin] defines for the capability answers [False]. *)
Theorem missing_operation_raises_AttributeError `{UserCode} c self x st :
  getattr (st_heap st) self (operation_name c) = None ->
  call_method self (operation_name c) [x] st = (Raise AttributeError, st) /\
  (forall q, base_query c = Some q -> q self st = (Ok (VBool false), st)).
Proof.
  intros Hg. split.
  - by apply call_method_missing.
  - intros q Hq. rewrite (base_query_run _ _ _ _ Hq), has_callable_run.
    by rewrite Hg.
Qed.

(** *** The report dictionary *)

Lemma prepare_run self pv sv st :
  getattr (st_heap st) self "plugin_version" = Some pv ->
  getattr (st_heap st) self "system_version" = Some sv ->
  prepare_analysis_report_dictionary self st =
  (Ok (VDict (report_of pv sv (st_clock st))), st).
Proof.
  intros Hp Hs. unfold prepare_analysis_report_dictionary. run.
  rewrite Hp. simpl. rewrite Hs. simpl.
  destruct sv; simpl; rewrite ?Hs; reflexivity.
Qed.

Lemma prepare_frame self st :
  snd (prepare_analysis_report_dictionary self st) = st.
Proof.
  unfold prepare_analysis_report_dictionary. run.
  destruct (getattr (st_heap st) self "plugin_version") as [pv|] eqn:Hp;
    simpl; [|reflexivity].
  destruct (getattr (st_heap st) self "system_version") as [sv|] eqn:Hs;
    simpl; [|reflexivity].
  destruct sv; simpl; rewrite ?Hs; reflexivity.
Qed.

Lemma versions_plugin_version pv sv : versions pv sv !! "plugin_version" = Some pv.
Proof.
  unfold versions. rewrite lookup_insert_ne by discriminate.
  apply lookup_insert_eq.
Qed.

Lemma versions_system_version pv sv : versions pv sv !! "system_version" = Some sv.
Proof. unfold versions. apply lookup_insert_eq. Qed.

Lemma report_of_plugin_version pv sv t :
  report_of pv sv t !! "plugin_version" = Some pv.
Proof.
  unfold report_of.
  destruct sv; rewrite ?(lookup_insert_ne _ "system_version") by discriminate;
    (rewrite lookup_insert_ne by discriminate); apply lookup_insert_eq.
Qed.

Lemma report_of_analysis_date pv sv t :
  report_of pv sv t !! "analysis_date" = Some (VDatetime t).
Proof.
  unfold report_of.
  destruct sv; rewrite ?(lookup_insert_ne _ "system_version") by discriminate;
    apply lookup_insert_eq.
Qed.

Lemma report_of_system_version pv sv t :
  report_of pv sv t !! "system_version" =
  match sv with VNone => None | _ => Some sv end.
Proof.
  unfold report_of.
  destruct sv; rewrite ?lookup_insert_eq; reflexivity.
Qed.

Lemma report_of_keys pv sv t k :
  is_Some (report_of pv sv t !! k) ->
  k = "plugin_version" \/ k = "analysis_date" \/ k = "system_version".
Proof.
  intros Hk.
  destruct (decide (k = "plugin_version")) as [|N1]; [by left|].
  destruct (decide (k = "analysis_date")) as [|N2]; [by right; left|].
  destruct (decide (k = "system_version")) as [|N3]; [by right; right|].
  exfalso. unfold report_of in Hk.
  destruct sv; rewrite ?(lookup_insert_ne _ "system_version") in Hk by congruence;
    rewrite (lookup_insert_ne _ "analysis_date") in Hk by congruence;
    rewrite (lookup_insert_ne _ "plugin_version") in Hk by congruence;
    rewrite lookup_empty in Hk; by destruct Hk.
Qed.

(** The versions stored on an instance that [AnalysisPlugin.__init__] has
    initialised. *)
Lemma instantiate_versions `{UserCode} c m pv sv st :
  mro c = Some m ->
  mro_lookup m "__init__" = Some (VFunc Fn_AnalysisPlugin_init) ->
  exists p st',
    instantiate c (ctor_args pv sv) st = (Ok p, st') /\
    st_clock st' = st_clock st /\
    getattr (st_heap st') p "plugin_version" = Some pv /\
    getattr (st_heap st') p "system_version" = Some (default VNone sv).
Proof.
  intros Hm Hi.
  exists (VRef (length (st_heap st))),
         (with_heap st (st_heap st ++ [Object m (versions pv (default VNone sv))])).
  split; [by apply instantiate_run|]. split; [reflexivity|].
  unfold with_heap. simpl st_heap. rewrite !getattr_fresh.
  by rewrite versions_plugin_version, versions_system_version.
Qed.

(** C3, amended.  For an instance of a class whose [__init__] is the one of
    [AnalysisPlugin], the report holds [plugin_version] and [analysis_date]
    (the reading of the clock), holds [system_version] exactly when a value
    other than [None] was passed to the constructor, and holds no other
    key; when [system_version] was left out the report is exactly the two
    base entries. *)
Theorem report_after_construction `{UserCode} c m pv sv st :
  mro c = Some m ->
  mro_lookup m "__init__" = Some (VFunc Fn_AnalysisPlugin_init) ->
  exists p st' d,
    instantiate c (ctor_args pv sv) st = (Ok p, st') /\
    prepare_analysis_report_dictionary p st' = (Ok (VDict d), st') /\
    d !! "plugin_version" = Some pv /\
    d !! "analysis_date" = Some (VDatetime (st_clock st')) /\
    (forall v, d !! "system_version" = Some v <-> sv = Some v /\ v <> VNone) /\
    (forall k, is_Some (d !! k) ->
               k = "plugin_version" \/ k = "analysis_date" \/ k = "system_version") /\
    (sv = None ->
     d = <["analysis_date" := VDatetime (st_clock st')]> (<["plugin_version" := pv]> ∅)).
Proof.
  intros Hm Hi.
  destruct (instantiate_versions c m pv sv st Hm Hi) as (p & st' & Hnew & Hclk & Hp & Hs).
  exists p, st', (report_of pv (default VNone sv) (st_clock st')).
  split; [exact Hnew|]. split; [by apply prepare_run|].
  split; [apply report_of_plugin_version|].
  split; [apply report_of_analysis_date|].
  split; [|split].
  - intros v. rewrite report_of_system_version. split.
    + destruct sv as [sv|]; simpl; [|discriminate].
      destruct sv; intros Hv; inversion Hv; subst; split; congruence.
    + intros [-> Hv]. simpl. by destruct v.
  - apply report_of_keys.
  - intros ->. reflexivity.
Qed.

(** C9.  The report holds [system_version] exactly when the stored
    attribute is not [None]; passing [None] to the constructor is the same
    as leaving the argument out; the empty string and zero, false as they
    are in a test, are stored and reported. *)
Theorem system_version_reported_unless_None `{UserCode} :
  (forall self pv sv st,
      getattr (st_heap st) self "plugin_version" = Some pv ->
      getattr (st_heap st) self "system_version" = Some sv ->
      exists d,
        prepare_analysis_report_dictionary self st = (Ok (VDict d), st) /\
        (is_Some (d !! "system_version") <-> sv <> VNone) /\
        (sv <> VNone -> d !! "system_version" = Some sv)) /\
  (forall c m pv st,
      mro c = Some m ->
      mro_lookup m "__init__" = Some (VFunc Fn_AnalysisPlugin_init) ->
      instantiate c [pv; VNone] st = instantiate c [pv] st) /\
  (forall c m pv sv st,
      mro c = Some m ->
      mro_lookup m "__init__" = Some (VFunc Fn_AnalysisPlugin_init) ->
      sv = VStr "" \/ sv = VInt 0 ->
      truthy sv = false /\
      exists p st' d,
        instantiate c [pv; sv] st = (Ok p, st') /\
        prepare_analysis_report_dictionary p st' = (Ok (VDict d), st') /\
        d !! "system_version" = Some sv).
Proof.
  split; [|split].
  - intros self pv sv st Hp Hs. eexists. split; [by apply prepare_run|].
    rewrite report_of_system_version. split.
    + split.
      * destruct sv; intros Hx; try discriminate. by destruct Hx.
      * intros Hx. destruct sv; try eauto. congruence.
    + intros Hx. destruct sv; try reflexivity. congruence.
  - intros c m pv st Hm Hi.
    rewrite (instantiate_run c m pv (Some VNone) st Hm Hi).
    by rewrite (instantiate_run c m pv None st Hm Hi).
  - intros c m pv sv st Hm Hi Hsv. split; [by destruct Hsv as [-> | ->]|].
    destruct (instantiate_versions c m pv (Some sv) st Hm Hi)
      as (p & st' & Hnew & Hclk & Hp & Hs).
    exists p, st', (report_of pv sv (st_clock st')).
    split; [exact Hnew|]. split; [by apply prepare_run|].
    rewrite report_of_system_version. by destruct Hsv as [-> | ->].
Qed.

(** *** The base contract leaves the versions alone *)

(** C7.  Each query and [prepare_analysis_report_dictionary] returns the
    state it was given: both version attributes, and everything else on the
    heap, read the same afterwards. *)
Theorem base_operations_keep_versions op self st :
  In op base_operations ->
  let st' := snd (op self st) in
  getattr (st_heap st') self "plugin_version"
    = getattr (st_heap st) self "plugin_version" /\
  getattr (st_heap st') self "system_version"
    = getattr (st_heap st) self "system_version" /\
  st' = st.
Proof.
  intros Hop. simpl.
  assert (Hst : snd (op self st) = st).
  { simpl in Hop.
    destruct Hop as [<- | [<- | [<- | [<- | [<- | []]]]]];
      first [ apply prepare_frame
            | unfold can_analyze_file, can_analyze_url, can_analyze_ip,
                can_analyze_domain; by rewrite has_callable_run ]. }
  by rewrite Hst.
Qed.

(** *** Inherited placeholders *)

(** C8.  When the operation an instance inherits is the placeholder of the
    mixin, the query [AnalysisPlugin] defines for that capability answers
    [True], and invoking the operation raises [NotImplementedError] whatever
    the input.  The instances of the five convenience classes are such
    instances. *)
Theorem placeholder_supported_but_not_implemented `{UserCode} :
  (forall c l o st,
      st_heap st !! l = Some o ->
      ob_dict o !! operation_name c = None ->
      mro_lookup (ob_mro o) (operation_name c) = Some (VFunc (placeholder c)) ->
      (forall q, base_query c = Some q -> q (VRef l) st = (Ok (VBool true), st)) /\
      (forall x, fst (call_method (VRef l) (operation_name c) [x] st)
                 = Raise not_implemented)) /\
  (forall c pv sv st,
      exists p st',
        instantiate (convenience_class c) (ctor_args pv sv) st = (Ok p, st') /\
        (forall q, base_query c = Some q -> q p st' = (Ok (VBool true), st')) /\
        (forall x, fst (call_method p (operation_name c) [x] st')
                   = Raise not_implemented)).
Proof.
  assert (Hfound : forall c l st x,
             getattr (st_heap st) (VRef l) (operation_name c)
               = Some (VMethod (placeholder c) l) ->
             (forall q, base_query c = Some q ->
                        q (VRef l) st = (Ok (VBool true), st)) /\
             fst (call_method (VRef l) (operation_name c) [x] st)
               = Raise not_implemented).
  { intros c l st x Hg. split.
    - intros q Hq. rewrite (base_query_run _ _ _ _ Hq), has_callable_run.
      by rewrite Hg.
    - rewrite (call_method_found _ _ _ _ _ Hg). by destruct c. }
  split.
  - intros c l o st Hl Hd Hm.
    assert (Hg : getattr (st_heap st) (VRef l) (operation_name c)
                 = Some (VMethod (placeholder c) l)).
    { rewrite (getattr_inherited _ _ _ _ Hl Hd), Hm. reflexivity. }
    split; [apply (Hfound c l st VNone Hg)|].
    intros x. apply (Hfound c l st x Hg).
  - intros c pv sv st.
    destruct (convenience_instance c pv sv st) as (Hi & Hop & _).
    eexists _, _. split; [exact Hi|].
    specialize (Hop c). replace (capability_eqb c c) with true in Hop by (by destruct c).
    split; [apply (Hfound c _ _ VNone Hop)|].
    intros x. apply (Hfound c _ _ x Hop).
Qed.

(** *** The theorems on the sample plugins *)

Lemma capability_query_iff_callable_witness :
  base_query CapFile = Some can_analyze_file /\
  exists b,
    can_analyze_file file_plugin file_plugin_state
      = (Ok (VBool b), file_plugin_state) /\
    (b = true <->
     exposes_callable (st_heap file_plugin_state) file_plugin "analyze_file").
Proof.
  split; [reflexivity|].
  destruct capability_query_iff_callable as [Hq _].
  apply (Hq CapFile can_analyze_file file_plugin file_plugin_state).
  reflexivity.
Defined.

Lemma missing_operation_witness :
  getattr (st_heap file_plugin_state) file_plugin "analyze_ip" = None /\
  call_method file_plugin "analyze_ip" [VStr "192.0.2.1"] file_plugin_state
    = (Raise AttributeError, file_plugin_state) /\
  can_analyze_ip file_plugin file_plugin_state
    = (Ok (VBool false), file_plugin_state).
Proof.
  assert (Hg : getattr (st_heap file_plugin_state) file_plugin (operation_name CapIP)
               = None) by (vm_compute; reflexivity).
  destruct (missing_operation_raises_AttributeError CapIP file_plugin
              (VStr "192.0.2.1") file_plugin_state Hg) as [Hcall Hquery].
  split; [exact Hg|]. split; [exact Hcall|].
  apply (Hquery can_analyze_ip). reflexivity.
Defined.

(** C2 fails as worded: [AnalysisPluginFile("1.0")] has no [analyze_ip], and
    invoking it does not raise [NotImplementedError]. *)
Lemma missing_operation_counterexample :
  ~ missing_operation_not_implemented CapIP file_plugin (VStr "192.0.2.1")
      file_plugin_state.
Proof.
  intros Hclaim.
  assert (Hg : getattr (st_heap file_plugin_state) file_plugin (operation_name CapIP)
               = None) by (vm_compute; reflexivity).
  destruct (Hclaim Hg) as [msg Hmsg].
  rewrite (call_method_missing _ _ _ _ Hg) in Hmsg. discriminate.
Qed.

Lemma report_after_construction_witness :
  mro AnalysisPlugin = Some [AnalysisPlugin; object_] /\
  mro_lookup [AnalysisPlugin; object_] "__init__" = Some (VFunc Fn_AnalysisPlugin_init) /\
  exists p st' d,
    instantiate AnalysisPlugin [VStr "1.0"] boot = (Ok p, st') /\
    prepare_analysis_report_dictionary p st' = (Ok (VDict d), st') /\
    d = <["analysis_date" := VDatetime (st_clock st')]>
          (<["plugin_version" := VStr "1.0"]> ∅) /\
    d !! "system_version" = None.
Proof.
  assert (Hm : mro AnalysisPlugin = Some [AnalysisPlugin; object_])
    by (vm_compute; reflexivity).
  assert (Hi : mro_lookup [AnalysisPlugin; object_] "__init__"
               = Some (VFunc Fn_AnalysisPlugin_init)) by (vm_compute; reflexivity).
  split; [exact Hm|]. split; [exact Hi|].
  destruct (report_after_construction AnalysisPlugin _ (VStr "1.0") None boot Hm Hi)
    as (p & st' & d & Hnew & Hrep & _ & _ & _ & _ & Hd).
  exists p, st', d. split; [exact Hnew|]. split; [exact Hrep|].
  split; [exact (Hd eq_refl)|]. rewrite (Hd eq_refl). reflexivity.
Defined.

(** C3 fails as worded: [AnalysisPlugin("1.0", None)] was given a
    [system_version], and its report has no such key. *)
Lemma explicit_None_counterexample :
  ~ system_version_iff_supplied AnalysisPlugin (VStr "1.0") (Some VNone) boot.
Proof.
  intros (p & st' & d & Hnew & Hrep & Hiff).
  assert (Hm : mro AnalysisPlugin = Some [AnalysisPlugin; object_])
    by (vm_compute; reflexivity).
  assert (Hi : mro_lookup [AnalysisPlugin; object_] "__init__"
               = Some (VFunc Fn_AnalysisPlugin_init)) by (vm_compute; reflexivity).
  destruct (instantiate_versions AnalysisPlugin _ (VStr "1.0") (Some VNone) boot Hm Hi)
    as (p0 & st0 & Hnew0 & _ & Hp & Hs).
  rewrite Hnew0 in Hnew. inversion Hnew; subst p0 st0.
  rewrite (prepare_run _ _ _ _ Hp Hs) in Hrep.
  change (Ok (VDict (report_of (VStr "1.0") VNone (st_clock st'))) = Ok (VDict d))
    in Hrep.
  assert (Hd : d = report_of (VStr "1.0") VNone (st_clock st')) by congruence.
  subst d.
  destruct Hiff as [_ Hback]. destruct (Hback (mk_is_Some _ _ eq_refl)) as [v Hv].
  rewrite report_of_system_version in Hv. discriminate.
Qed.

Lemma system_version_reported_witness :
  getattr (st_heap blank_system_state) (VRef 0) "plugin_version" = Some (VStr "1.0") /\
  getattr (st_heap blank_system_state) (VRef 0) "system_version" = Some (VStr "") /\
  exists d,
    prepare_analysis_report_dictionary (VRef 0) blank_system_state
      = (Ok (VDict d), blank_system_state) /\
    d !! "system_version" = Some (VStr "").
Proof.
  assert (Hp : getattr (st_heap blank_system_state) (VRef 0) "plugin_version"
               = Some (VStr "1.0")) by (vm_compute; reflexivity).
  assert (Hs : getattr (st_heap blank_system_state) (VRef 0) "system_version"
               = Some (VStr "")) by (vm_compute; reflexivity).
  split; [exact Hp|]. split; [exact Hs|].
  destruct system_version_reported_unless_None as [Hstored _].
  destruct (Hstored (VRef 0) (VStr "1.0") (VStr "") blank_system_state Hp Hs)
    as (d & Hrep & _ & Hd).
  exists d. split; [exact Hrep|]. apply Hd. discriminate.
Defined.

Lemma base_operations_keep_versions_witness :
  In prepare_analysis_report_dictionary base_operations /\
  snd (prepare_analysis_report_dictionary file_plugin file_plugin_state)
    = file_plugin_state.
Proof.
  assert (Hin : In prepare_analysis_report_dictionary base_operations).
  { simpl. right; right; right; right; left. reflexivity. }
  split; [exact Hin|].
  apply (base_operations_keep_versions _ file_plugin file_plugin_state Hin).
Defined.

Lemma placeholder_witness :
  st_heap file_plugin_state !! 0%nat
    = Some (Object (convenience_mro CapFile) (versions (VStr "1.0") VNone)) /\
  versions (VStr "1.0") VNone !! "analyze_file" = None /\
  mro_lookup (convenience_mro CapFile) "analyze_file"
    = Some (VFunc Fn_FileAnalysisMixin_analyze_file) /\
  can_analyze_file file_plugin file_plugin_state
    = (Ok (VBool true), file_plugin_state) /\
  fst (call_method file_plugin "analyze_file" [VStr "/tmp/x"] file_plugin_state)
    = Raise not_implemented.
Proof.
  assert (Hl : st_heap file_plugin_state !! 0%nat
               = Some (Object (convenience_mro CapFile) (versions (VStr "1.0") VNone)))
    by (vm_compute; reflexivity).
  assert (Hd : versions (VStr "1.0") VNone !! "analyze_file" = None)
    by (vm_compute; reflexivity).
  assert (Hm : mro_lookup (convenience_mro CapFile) "analyze_file"
               = Some (VFunc Fn_FileAnalysisMixin_analyze_file))
    by (vm_compute; reflexivity).
  destruct placeholder_supported_but_not_implemented as [Hgeneral _].
  destruct (Hgeneral CapFile 0%nat _ file_plugin_state Hl Hd Hm) as [Hq Hcall].
  split; [exact Hl|]. split; [exact Hd|]. split; [exact Hm|].
  split; [apply (Hq can_analyze_file); reflexivity | apply Hcall].
Defined.

End plugin_contract.

Import plugin_contract.

(** * Properties of the command-line client *)

Module client_behaviour.

Lemma same_io_refl st : same_io st st.
Proof. by repeat split. Qed.

Lemma same_io_trans st1 st2 st3 :
  same_io st1 st2 -> same_io st2 st3 -> same_io st1 st3.
Proof.
  intros (E1 & H1 & C1) (E2 & H2 & C2). repeat split; congruence.
Qed.

Lemma quiet_ret {A} (a : A) : quiet (mret a).
Proof. intros st. apply same_io_refl. Qed.

Lemma quiet_raise {A} e : quiet (@raise A e).
Proof. intros st. apply same_io_refl. Qed.

Lemma quiet_bind {A B} (m : M A) (k : A -> M B) :
  quiet m -> (forall a, quiet (k a)) -> quiet (m ≫= k).
Proof.
  intros Hm Hk st. unfold mbind, M_bind, bind.
  specialize (Hm st). destruct (m st) as [[a|e] st1]; simpl in *.
  - eapply same_io_trans; [exact Hm | apply Hk].
  - exact Hm.
Qed.

Lemma quiet_get_heap : quiet get_heap.
Proof. intros st. apply same_io_refl. Qed.

Lemma quiet_set_heap h : quiet (set_heap h).
Proof. intros st. by repeat split. Qed.

Lemma quiet_load_attr v name : quiet (load_attr v name).
Proof.
  intros st. unfold load_attr.
  destruct (getattr (st_heap st) v name); apply same_io_refl.
Qed.

Lemma quiet_store_attr v name a : quiet (store_attr v name a).
Proof.
  intros st. unfold store_attr.
  destruct v; try apply same_io_refl.
  destruct (st_heap st !! l); by repeat split.
Qed.

Lemma quiet_init self pv sv : quiet (__init__ self pv sv).
Proof.
  unfold __init__.
  apply quiet_bind; [apply quiet_store_attr|]. intros _.
  apply quiet_bind; [apply quiet_store_attr|]. intros _.
  apply quiet_ret.
Qed.

Lemma quiet_has_callable self name : quiet (has_callable self name).
Proof. intros st. rewrite has_callable_run. apply same_io_refl. Qed.

Lemma quiet_prepare self : quiet (prepare_analysis_report_dictionary self).
Proof. intros st. rewrite prepare_frame. apply same_io_refl. Qed.

Section Quiet.
Context `{UserCode}.

Lemma quiet_run_user id args : quiet (run_user id args).
Proof.
  intros st. unfold run_user.
  destruct (user_fn id args (st_clock st) (st_heap st)). by repeat split.
Qed.

Lemma quiet_run_func f args : quiet (run_func f args).
Proof.
  destruct f; try apply quiet_run_user;
    destruct args as [|a [|b [|c [|d rest]]]]; simpl;
    first [ apply quiet_raise | apply quiet_init | apply quiet_has_callable
          | apply quiet_prepare ].
Qed.

Lemma quiet_call_value v args : quiet (call_value v args).
Proof.
  destruct v; simpl; try apply quiet_raise; try apply quiet_run_func.
  apply quiet_bind; [apply quiet_get_heap|]. intros h.
  destruct (h !! l) as [o|]; [|apply quiet_raise].
  destruct (mro_lookup (ob_mro o) "__call__") as [[]|];
    first [ apply quiet_raise | apply quiet_run_func ].
Qed.

Lemma quiet_instantiate c args : quiet (instantiate c args).
Proof.
  unfold instantiate. destruct (mro c) as [m|]; [|apply quiet_raise].
  apply quiet_bind; [apply quiet_get_heap|]. intros h.
  apply quiet_bind; [apply quiet_set_heap|]. intros _.
  destruct (mro_lookup m "__init__") as [init|].
  - apply quiet_bind; [apply quiet_call_value|]. intros r.
    destruct r; first [ apply quiet_ret | apply quiet_raise ].
  - destruct args; [apply quiet_ret | apply quiet_raise].
Qed.

Lemma quiet_construct cls : quiet (construct cls).
Proof. destruct cls; [apply quiet_instantiate | apply quiet_call_value]. Qed.

(** A method call adds one event when the attribute is there, none when
    it is not. *)
Lemma call_method_io recv name args st :
  let st' := snd (call_method recv name args st) in
  st_handlers st' = st_handlers st /\
  st_clock st' = st_clock st /\
  st_events st' = st_events st ++
    (if hasattr (st_heap st) recv name then [EvCall name args] else []).
Proof.
  simpl. unfold hasattr.
  destruct (getattr (st_heap st) recv name) as [a|] eqn:Hg.
  - rewrite (call_method_found _ _ _ _ _ Hg).
    destruct (quiet_call_value a args
      (State (st_heap st) (st_clock st) (st_handlers st)
             (st_events st ++ [EvCall name args]))) as (E & Hh & C).
    by rewrite E, Hh, C.
  - rewrite (call_method_missing _ _ _ _ Hg). simpl.
    by rewrite app_nil_r.
Qed.

End Quiet.

(** *** One requested input *)

Section Steps.
Context `{UserCode}.

Lemma client_step_schema c step :
  client_step c = Some step -> step = analyze_step c.
Proof. destruct c; simpl; intros Hs; inversion Hs; reflexivity. Qed.

Lemma log_run level msg st :
  log level msg st = (Ok tt, with_events st (records (st_handlers st) level msg)).
Proof. reflexivity. Qed.

Lemma records_console handlers level msg :
  In (Handler Console INFO) handlers -> INFO <= level ->
  In (EvLog Console level msg) (records handlers level msg).
Proof.
  intros Hin Hle. unfold records. apply in_flat_map.
  exists (Handler Console INFO). split; [exact Hin|]. simpl.
  replace (Z.leb INFO level) with true by (symmetry; apply Z.leb_le; exact Hle).
  replace (Z.leb DEBUG level) with true
    by (symmetry; apply Z.leb_le; unfold DEBUG, INFO in *; lia).
  simpl. by left.
Qed.

(** What one [if x: ...] block of [_analyze] does, in terms of the two method
    calls it makes. *)
Lemma requested_run c analyzer x st :
  truthy (VStr x) = true ->
  requested (Some x) (analyze_step c analyzer) st =
  match call_method analyzer (query_name c) [] st with
  | (Raise e, st1) => (Raise e, st1)
  | (Ok ok, st1) =>
      if truthy ok then
        match call_method analyzer (operation_name c) [VStr x]
                (with_events st1 (records (st_handlers st1) INFO (info_prefix c +:+ x))) with
        | (Ok report, st3) => (Ok tt, with_events st3 [EvPrint report])
        | (Raise e, st3) => (Raise e, st3)
        end
      else
        (Ok tt, with_events
                  (with_events st1 (records (st_handlers st1) WARNING (skip_warning c)))
                  [EvPrint VNone])
  end.
Proof.
  intros Hx. unfold requested. rewrite Hx.
  unfold analyze_step, _pretty_print, mbind, M_bind, bind.
  destruct (call_method analyzer (query_name c) [] st) as [[ok|e] st1]; [|reflexivity].
  destruct (truthy ok); rewrite log_run; [|reflexivity].
  destruct (call_method analyzer (operation_name c) [VStr x] _) as [[r|e] st3];
    reflexivity.
Qed.

Lemma requested_skip x step st :
  given x = false -> requested x step st = (Ok tt, st).
Proof.
  unfold given, requested. destruct x as [s|]; [|reflexivity].
  by intros ->.
Qed.

Lemma query_not_operation c c' : query_name c <> operation_name c'.
Proof. destruct c, c'; discriminate. Qed.

(** A query that returned was found on the analyzer, and left one event. *)
Lemma query_returned analyzer name args st ok st1 :
  call_method analyzer name args st = (Ok ok, st1) ->
  st_handlers st1 = st_handlers st /\
  st_events st1 = st_events st ++ [EvCall name args].
Proof.
  intros Hq. pose proof (call_method_io analyzer name args st) as Hio.
  rewrite Hq in Hio. simpl in Hio. destruct Hio as (Hh & _ & He).
  split; [exact Hh|]. rewrite He. unfold hasattr.
  destruct (getattr (st_heap st) analyzer name) eqn:Hg; [reflexivity|].
  rewrite (call_method_missing _ _ _ _ Hg) in Hq. discriminate.
Qed.

(** *** The order of the analyses *)

Lemma block_nil c x : block c x [].
Proof.
  unfold block. destruct x as [s|]; [|reflexivity].
  destruct (truthy (VStr s)); [|reflexivity].
  exists []. split; [reflexivity|]. by left.
Qed.

Lemma operation_calls_app a b :
  operation_calls (a ++ b) = operation_calls a ++ operation_calls b.
Proof. apply List.filter_app. Qed.

Lemma operation_calls_records handlers level msg :
  operation_calls (records handlers level msg) = [].
Proof.
  unfold records, operation_calls. induction handlers as [|hd tl IH]; [reflexivity|].
  simpl. rewrite List.filter_app, IH, app_nil_r.
  by destruct (Z.leb (h_level hd) level && Z.leb DEBUG level).
Qed.

Lemma operation_calls_query c (b : bool) :
  operation_calls (if b then [EvCall (query_name c) []] else []) = [].
Proof. destruct b, c; reflexivity. Qed.

Lemma is_operation_call_operation c a :
  is_operation_call (EvCall (operation_name c) a) = true.
Proof. by destruct c. Qed.

Lemma requested_block c x analyzer st :
  exists b,
    st_events (snd (requested x (analyze_step c analyzer) st)) = st_events st ++ b /\
    block c x b.
Proof.
  destruct (given x) eqn:Hgiven.
  2:{ rewrite requested_skip by exact Hgiven. exists []. simpl.
      split; [by rewrite app_nil_r | apply block_nil]. }
  destruct x as [s|]; [|discriminate]. unfold given in Hgiven.
  rewrite (requested_run _ _ _ _ Hgiven). unfold block. rewrite Hgiven.
  pose proof (call_method_io analyzer (query_name c) [] st) as (Hh1 & _ & He1).
  pose proof (operation_calls_query c (hasattr (st_heap st) analyzer (query_name c)))
    as Hq.
  set (e1 := if hasattr (st_heap st) analyzer (query_name c)
             then [EvCall (query_name c) []] else []) in *.
  destruct (call_method analyzer (query_name c) [] st) as [[ok|e] st1];
    simpl in He1, Hh1.
  2:{ exists e1. split; [exact He1|]. exists e1. split; [exact Hq | by left]. }
  destruct (truthy ok).
  - set (recs := records (st_handlers st1) INFO (info_prefix c +:+ s)).
    pose proof (call_method_io analyzer (operation_name c) [VStr s]
                  (with_events st1 recs)) as (_ & _ & He2).
    assert (Hpre : operation_calls (e1 ++ recs) = []).
    { rewrite operation_calls_app, Hq. apply operation_calls_records. }
    destruct (hasattr (st_heap (with_events st1 recs)) analyzer (operation_name c));
      destruct (call_method analyzer (operation_name c) [VStr s] (with_events st1 recs))
        as [[r|e] st3]; simpl in He2 |- *; rewrite He2, He1.
    + exists (e1 ++ recs ++ [EvCall (operation_name c) [VStr s]; EvPrint r]).
      split; [by rewrite <- !app_assoc|].
      exists (e1 ++ recs). split; [exact Hpre|]. right; right. exists r.
      by rewrite <- !app_assoc.
    + exists (e1 ++ recs ++ [EvCall (operation_name c) [VStr s]]).
      split; [by rewrite <- !app_assoc|].
      exists (e1 ++ recs). split; [exact Hpre|]. right; left.
      by rewrite <- !app_assoc.
    + exists ((e1 ++ recs) ++ [EvPrint r]).
      split; [by rewrite app_nil_r, <- !app_assoc|].
      exists ((e1 ++ recs) ++ [EvPrint r]). split; [|by left].
      by rewrite operation_calls_app, Hpre.
    + exists (e1 ++ recs).
      split; [by rewrite app_nil_r, <- !app_assoc|].
      exists (e1 ++ recs). split; [exact Hpre | by left].
  - set (recs := records (st_handlers st1) WARNING (skip_warning c)).
    simpl. rewrite He1.
    exists ((e1 ++ recs) ++ [EvPrint VNone]).
    split; [by rewrite <- !app_assoc|].
    exists ((e1 ++ recs) ++ [EvPrint VNone]). split; [|by left].
    rewrite !operation_calls_app, Hq. unfold recs.
    by rewrite operation_calls_records.
Qed.

(** The events of a whole run of [_analyze]: four blocks, in the order
    file, URL, IP, domain. *)
Lemma analyze_blocks args cls st :
  exists b1 b2 b3 b4,
    st_events (snd (_analyze args cls st)) = st_events st ++ b1 ++ b2 ++ b3 ++ b4 /\
    block CapFile (file args) b1 /\
    block CapURL (url args) b2 /\
    block CapIP (ip args) b3 /\
    block CapDomain (domain args) b4.
Proof.
  unfold _analyze, mbind, M_bind, bind.
  destruct (quiet_construct cls st) as (E0 & _ & _).
  destruct (construct cls st) as [[analyzer|e] st0]; simpl in E0.
  2:{ exists [], [], [], []. simpl.
      rewrite app_nil_r. repeat split; first [exact E0 | apply block_nil]. }
  change (_analyze_file analyzer) with (analyze_step CapFile analyzer).
  change (_analyze_url analyzer) with (analyze_step CapURL analyzer).
  change (_analyze_ip analyzer) with (analyze_step CapIP analyzer).
  change (_analyze_domain analyzer) with (analyze_step CapDomain analyzer).
  destruct (requested_block CapFile (file args) analyzer st0) as (b1 & E1 & B1).
  destruct (requested (file args) (analyze_step CapFile analyzer) st0)
    as [[[]|e] st1]; simpl in E1.
  2:{ exists b1, [], [], []. simpl. rewrite app_nil_r, E1, E0.
      repeat split; first [exact B1 | apply block_nil]. }
  destruct (requested_block CapURL (url args) analyzer st1) as (b2 & E2 & B2).
  destruct (requested (url args) (analyze_step CapURL analyzer) st1)
    as [[[]|e] st2]; simpl in E2.
  2:{ exists b1, b2, [], []. simpl. rewrite app_nil_r, E2, E1, E0, <- !app_assoc.
      repeat split; first [exact B1 | exact B2 | apply block_nil]. }
  destruct (requested_block CapIP (ip args) analyzer st2) as (b3 & E3 & B3).
  destruct (requested (ip args) (analyze_step CapIP analyzer) st2)
    as [[[]|e] st3]; simpl in E3.
  2:{ exists b1, b2, b3, []. simpl. rewrite app_nil_r, E3, E2, E1, E0, <- !app_assoc.
      repeat split; first [exact B1 | exact B2 | exact B3 | apply block_nil]. }
  destruct (requested_block CapDomain (domain args) analyzer st3) as (b4 & E4 & B4).
  exists b1, b2, b3, b4. rewrite E4, E3, E2, E1, E0, <- !app_assoc.
  repeat split; assumption.
Qed.


(** A block only adds events. *)
Lemma requested_grows x c analyzer st e :
  In e (st_events st) ->
  In e (st_events (snd (requested x (analyze_step c analyzer) st))).
Proof.
  intros Hin. destruct (requested_block c x analyzer st) as (b & -> & _).
  apply in_or_app. by left.
Qed.

(** A block that returned has asked its query. *)
Lemma requested_ok_checked c x analyzer st st' :
  truthy (VStr x) = true ->
  requested (Some x) (analyze_step c analyzer) st = (Ok tt, st') ->
  In (EvCall (query_name c) []) (st_events st').
Proof.
  intros Hx. rewrite (requested_run _ _ _ _ Hx).
  destruct (call_method analyzer (query_name c) [] st) as [[ok|e] st1] eqn:Hq;
    [|discriminate].
  destruct (query_returned _ _ _ _ _ _ Hq) as (_ & He).
  destruct (truthy ok).
  - pose proof (call_method_io analyzer (operation_name c) [VStr x]
      (with_events st1 (records (st_handlers st1) INFO (info_prefix c +:+ x))))
      as (_ & _ & He2).
    destruct (call_method analyzer (operation_name c) [VStr x] _) as [[r|e] st3];
      [|discriminate].
    intros Hr. inversion Hr; subst st'. simpl in He2 |- *. rewrite He2, He.
    rewrite !in_app_iff. simpl. tauto.
  - intros Hr. inversion Hr; subst st'. simpl. rewrite He.
    rewrite !in_app_iff. simpl. tauto.
Qed.

Lemma analyze_ok_checked args cls st c x :
  input_of args c = Some x ->
  truthy (VStr x) = true ->
  fst (_analyze args cls st) = Ok tt ->
  In (EvCall (query_name c) []) (st_events (snd (_analyze args cls st))).
Proof.
  intros Hinput Hx. unfold _analyze, mbind, M_bind, bind.
  destruct (construct cls st) as [[analyzer|e] st0]; [|discriminate].
  change (_analyze_file analyzer) with (analyze_step CapFile analyzer).
  change (_analyze_url analyzer) with (analyze_step CapURL analyzer).
  change (_analyze_ip analyzer) with (analyze_step CapIP analyzer).
  change (_analyze_domain analyzer) with (analyze_step CapDomain analyzer).
  destruct (requested (file args) (analyze_step CapFile analyzer) st0)
    as [[[]|e] st1] eqn:H1; [|discriminate].
  destruct (requested (url args) (analyze_step CapURL analyzer) st1)
    as [[[]|e] st2] eqn:H2; [|discriminate].
  destruct (requested (ip args) (analyze_step CapIP analyzer) st2)
    as [[[]|e] st3] eqn:H3; [|discriminate].
  destruct (requested (domain args) (analyze_step CapDomain analyzer) st3)
    as [[[]|e] st4] eqn:H4; [|discriminate].
  intros _. simpl snd.
  pose proof (requested_grows (url args) CapURL analyzer st1) as G2.
  pose proof (requested_grows (ip args) CapIP analyzer st2) as G3.
  pose proof (requested_grows (domain args) CapDomain analyzer st3) as G4.
  rewrite H2 in G2. rewrite H3 in G3. rewrite H4 in G4. simpl snd in G2, G3, G4.
  destruct c; simpl in Hinput; [| | | |discriminate].
  - rewrite Hinput in H1. apply G4, G3, G2. exact (requested_ok_checked _ _ _ _ _ Hx H1).
  - rewrite Hinput in H2. apply G4, G3. exact (requested_ok_checked _ _ _ _ _ Hx H2).
  - rewrite Hinput in H3. apply G4. exact (requested_ok_checked _ _ _ _ _ Hx H3).
  - rewrite Hinput in H4. exact (requested_ok_checked _ _ _ _ _ Hx H4).
Qed.

(** C6.  For an input that was given, the client first asks the analyzer
    the matching query.  When the answer is true it logs, invokes the
    matching operation on the input and prints the report that comes back.
    When the answer is false it logs the skip warning (on the console, when
    logging is set up), prints [None], and does not invoke the operation:
    no call of it is in the trace and the heap is as the query left it.
    In a run of [_analyze] that returns, the query of every input that was
    given has been asked. *)
Theorem requested_input_checked_then_analyzed_or_skipped c step analyzer x st :
  client_step c = Some step ->
  truthy (VStr x) = true ->
  let query := call_method analyzer (query_name c) [] st in
  let run := requested (Some x) (step analyzer) st in
  (hasattr (st_heap st) analyzer (query_name c) = true ->
   exists rest,
     st_events (snd run) = st_events st ++ EvCall (query_name c) [] :: rest) /\
  (forall ok st1 report st3,
      query = (Ok ok, st1) -> truthy ok = true ->
      call_method analyzer (operation_name c) [VStr x]
        (with_events st1 (records (st_handlers st1) INFO (info_prefix c +:+ x)))
        = (Ok report, st3) ->
      fst run = Ok tt /\
      st_heap (snd run) = st_heap st3 /\
      st_events (snd run) =
        st_events st ++ [EvCall (query_name c) []]
          ++ records (st_handlers st) INFO (info_prefix c +:+ x)
          ++ [EvCall (operation_name c) [VStr x]; EvPrint report]) /\
  (forall ok st1,
      query = (Ok ok, st1) -> truthy ok = false ->
      fst run = Ok tt /\
      st_heap (snd run) = st_heap st1 /\
      st_events (snd run) =
        st_events st ++ [EvCall (query_name c) []]
          ++ records (st_handlers st) WARNING (skip_warning c)
          ++ [EvPrint VNone] /\
      (In (Handler Console INFO) (st_handlers st) ->
       In (EvLog Console WARNING (skip_warning c)) (st_events (snd run))) /\
      (forall args,
          ~ In (EvCall (operation_name c) args)
               ([EvCall (query_name c) []]
                  ++ records (st_handlers st) WARNING (skip_warning c)
                  ++ [EvPrint VNone]))) /\
  (forall args cls st0,
      input_of args c = Some x ->
      fst (_analyze args cls st0) = Ok tt ->
      In (EvCall (query_name c) []) (st_events (snd (_analyze args cls st0)))).
Proof.
  intros Hstep Hx query run. subst query run.
  rewrite (client_step_schema _ _ Hstep), (requested_run _ _ _ _ Hx).
  split; [|split; [|split]]; [| | |intros args cls st0 Hin; exact (analyze_ok_checked args cls st0 c x Hin Hx)].
  - intros Hhas.
    pose proof (call_method_io analyzer (query_name c) [] st) as (_ & _ & He).
    rewrite Hhas in He.
    destruct (call_method analyzer (query_name c) [] st) as [[ok|e] st1];
      simpl in He.
    + destruct (truthy ok).
      * pose proof (call_method_io analyzer (operation_name c) [VStr x]
          (with_events st1 (records (st_handlers st1) INFO (info_prefix c +:+ x))))
          as (_ & _ & He2).
        destruct (call_method analyzer (operation_name c) [VStr x] _)
          as [[r|e] st3]; simpl in *; rewrite He2, He, <- !app_assoc;
          eexists; reflexivity.
      * simpl. rewrite He, <- !app_assoc. eexists; reflexivity.
    + simpl. rewrite He. eexists; reflexivity.
  - intros ok st1 report st3 Hq Hok Hop. rewrite Hq, Hok, Hop. simpl.
    destruct (query_returned _ _ _ _ _ _ Hq) as (Hh & He).
    pose proof (call_method_io analyzer (operation_name c) [VStr x]
      (with_events st1 (records (st_handlers st1) INFO (info_prefix c +:+ x))))
      as (_ & _ & He2).
    rewrite Hop in He2. simpl in He2.
    assert (Hhas : hasattr (st_heap st1) analyzer (operation_name c) = true).
    { unfold hasattr.
      destruct (getattr (st_heap st1) analyzer (operation_name c)) eqn:Hg;
        [reflexivity|].
      rewrite call_method_missing in Hop by exact Hg. discriminate. }
    rewrite Hhas in He2.
    repeat split. rewrite He2, He, Hh, <- !app_assoc. reflexivity.
  - intros ok st1 Hq Hok. rewrite Hq, Hok. simpl.
    destruct (query_returned _ _ _ _ _ _ Hq) as (Hh & He).
    assert (Hev : (st_events st1 ++ records (st_handlers st1) WARNING (skip_warning c))
                    ++ [EvPrint VNone] =
                  st_events st ++ [EvCall (query_name c) []]
                    ++ records (st_handlers st) WARNING (skip_warning c)
                    ++ [EvPrint VNone]).
    { rewrite He, Hh, <- !app_assoc. reflexivity. }
    repeat split.
    + exact Hev.
    + intros Hc. rewrite Hev. apply in_or_app. right. apply in_or_app. right.
      apply in_or_app. left. apply records_console; [exact Hc|].
      unfold INFO, WARNING. lia.
    + intros args Hin. simpl in Hin. destruct Hin as [Hin|Hin].
      * inversion Hin as [[Hn Ha]]. by apply (query_not_operation c c).
      * apply in_app_or in Hin. destruct Hin as [Hin|[Hin|[]]]; [|discriminate].
        unfold records in Hin. apply in_flat_map in Hin.
        destruct Hin as (hd & _ & Hin).
        destruct (Z.leb (h_level hd) WARNING && Z.leb DEBUG WARNING);
          simpl in Hin; [|done]. by destruct Hin.
Qed.


End Steps.

(** *** How the process ends *)

Section Main.
Context `{UserCode} `{Host}.

Lemma check_level_raise v e :
  check_level v = Raise e -> e = ValueError \/ e = TypeError.
Proof.
  destruct v; simpl; intros Hc; inversion Hc; auto.
  destruct (name_to_level s); inversion Hc; auto.
Qed.

(** Setting up logging installs the console handler and writes nothing; it
    can fail only on the log file. *)
Lemma setup_logging_cases args st :
  (exists st1, _setup_logging args st = (Ok tt, st1) /\
               st_events st1 = st_events st /\
               In (Handler Console INFO) (st_handlers st1)) \/
  (exists e st1, _setup_logging args st = (Raise e, st1) /\
                 (e = OSError \/ e = ValueError \/ e = TypeError)).
Proof.
  unfold _setup_logging, mbind, M_bind, bind, add_handler, mret, M_ret, ret.
  destruct (log_file args) as [path|].
  2:{ left. eexists. split; [reflexivity|]. simpl. split; [reflexivity|].
      apply in_or_app. right. by left. }
  destruct (truthy (VStr path)).
  2:{ left. eexists. split; [reflexivity|]. simpl. split; [reflexivity|].
      apply in_or_app. right. by left. }
  destruct (open_log_file path).
  2:{ right. eexists _, _. split; [reflexivity|]. by left. }
  destruct (check_level (logging_getattr (upper (log_level args)))) as [n|e] eqn:Hc.
  - left. eexists. split; [reflexivity|]. simpl. split; [reflexivity|].
    apply in_or_app. left. apply in_or_app. right. by left.
  - right. eexists _, _. split; [reflexivity|]. right.
    by apply check_level_raise in Hc.
Qed.

Lemma load_without_module args st :
  analysis_module args = None ->
  fst (_load_analysis_class_from_module args st) = Raise (SystemExit 1).
Proof.
  intros Hm. unfold _load_analysis_class_from_module. rewrite Hm.
  unfold mbind, M_bind, bind. by rewrite log_run.
Qed.

Lemma load_failure args name st :
  analysis_module args = Some name ->
  resolution_fails name ->
  In (Handler Console INFO) (st_handlers st) ->
  exists e msg st',
    _load_analysis_class_from_module args st = (Raise e, st') /\
    (e = ImportError \/ e = AttributeError) /\
    In (EvLog Console ERROR msg) (st_events st').
Proof.
  intros Hm Hfail Hc. unfold _load_analysis_class_from_module. rewrite Hm.
  unfold mbind, M_bind, bind. rewrite log_run.
  assert (Hlog : forall msg st0,
             In (Handler Console INFO) (st_handlers st0) ->
             In (EvLog Console ERROR msg)
                (st_events (with_events st0 (records (st_handlers st0) ERROR msg)))).
  { intros msg st0 Hin. simpl. apply in_or_app. right.
    apply records_console; [exact Hin|]. unfold INFO, ERROR. lia. }
  destruct Hfail as [Hi | [Hi | (m & Hi & Hnone)]]; rewrite Hi; try rewrite Hnone;
    rewrite log_run; simpl fst; simpl snd;
    eexists _, _, _; (split; [reflexivity|]); (split; [auto|]);
    apply Hlog; exact Hc.
Qed.

Lemma exit_status_error {A} (e : exn) :
  (forall n, e <> SystemExit n) -> exit_status (@Raise A e) = 1.
Proof.
  intros Hn. destruct e as [| | | | | msg | n | name]; try reflexivity.
  by destruct (Hn n).
Qed.

(** C5, amended.  Without an analysis module the status is 1.  When the
    module cannot be imported or has no [analysis_class], the error is
    logged on the console and the exception ([ImportError] or
    [AttributeError]) ends the process with status 1.  When the class was
    found, the status is 0 if building the analyzer and all requested
    analyses return; an exception raised there ends the process, with
    status 1 unless it is a [SystemExit]. *)
Theorem exit_status_of_main argv args st :
  parse_args argv = Ok args ->
  let run := _main argv st in
  (analysis_module args = None -> exit_status (fst run) = 1) /\
  (forall name st1,
      analysis_module args = Some name ->
      _setup_logging args st = (Ok tt, st1) ->
      resolution_fails name ->
      (fst run = Raise ImportError \/ fst run = Raise AttributeError) /\
      exit_status (fst run) = 1 /\
      exists msg, In (EvLog Console ERROR msg) (st_events (snd run))) /\
  (forall st1 cls st2,
      _setup_logging args st = (Ok tt, st1) ->
      _load_analysis_class_from_module args st1 = (Ok cls, st2) ->
      match _analyze args cls st2 with
      | (Ok _, st3) => run = (Raise (SystemExit 0), st3) /\ exit_status (fst run) = 0
      | (Raise e, st3) =>
          run = (Raise e, st3) /\
          ((forall n, e <> SystemExit n) -> exit_status (fst run) = 1)
      end).
Proof.
  intros Hparse run. subst run.
  unfold _main, _setup_argparser, lift, mbind, M_bind, bind. rewrite Hparse.
  split; [|split].
  - intros Hm.
    destruct (setup_logging_cases args st) as [(st1 & -> & _) | (e & st1 & -> & He)].
    + pose proof (load_without_module args st1 Hm) as Hl.
      destruct (_load_analysis_class_from_module args st1) as [[cls|e] st2];
        simpl in Hl; [discriminate|]. by inversion Hl.
    + simpl. by destruct He as [-> | [-> | ->]].
  - intros name st1 Hm Hsetup Hfail. rewrite Hsetup.
    destruct (setup_logging_cases args st) as [(st1' & Hs & _ & Hc) | (e & st1' & Hs & _)];
      rewrite Hsetup in Hs; inversion Hs; subst st1'.
    destruct (load_failure args name st1 Hm Hfail Hc) as (e & msg & st' & -> & He & Hin).
    simpl. split; [by destruct He as [-> | ->]; auto|].
    split; [by destruct He as [-> | ->]|]. by exists msg.
  - intros st1 cls st2 Hsetup Hload. rewrite Hsetup, Hload.
    destruct (_analyze args cls st2) as [[[]|e] st3]; simpl.
    + by split.
    + split; [reflexivity|]. apply (@exit_status_error unit).
Qed.

End Main.

(** *** The theorems on the sample modules *)

(** C5 fails as worded: the module [file_plugin] and its class are found,
    the file analysis runs into the inherited placeholder, and the process
    ends with status 1. *)
Lemma placeholder_exit_counterexample :
  ~ exit_status_as_specified file_plugin_argv boot.
Proof.
  intros Hclaim.
  specialize (Hclaim _ eq_refl).
  vm_compute in Hclaim. discriminate.
Qed.

Lemma exit_status_of_main_witness :
  parse_args url_plugin_argv = Ok url_plugin_args /\
  exit_status (fst (_main url_plugin_argv boot)) = 0.
Proof.
  assert (Hparse : parse_args url_plugin_argv = Ok url_plugin_args) by reflexivity.
  split; [exact Hparse|].
  destruct (exit_status_of_main url_plugin_argv url_plugin_args boot Hparse)
    as (_ & _ & Hrun).
  set (st1 := snd (_setup_logging url_plugin_args boot)).
  set (st2 := snd (_load_analysis_class_from_module url_plugin_args st1)).
  assert (Hsetup : _setup_logging url_plugin_args boot = (Ok tt, st1))
    by (vm_compute; reflexivity).
  assert (Hload : _load_analysis_class_from_module url_plugin_args st1
                  = (Ok (EClass UrlPlugin), st2)) by (vm_compute; reflexivity).
  specialize (Hrun st1 (EClass UrlPlugin) st2 Hsetup Hload).
  destruct (_analyze url_plugin_args (EClass UrlPlugin) st2) as [[[]|e] st3] eqn:Hana.
  - exact (proj2 Hrun).
  - vm_compute in Hana. discriminate.
Defined.

Lemma requested_input_witness :
  client_step CapURL = Some _analyze_url /\
  truthy (VStr "http://example.org") = true /\
  hasattr (st_heap url_plugin_state) url_plugin "can_analyze_url" = true /\
  exists rest,
    st_events (snd (requested (Some "http://example.org")
                      (_analyze_url url_plugin) url_plugin_state))
    = st_events url_plugin_state ++ EvCall "can_analyze_url" [] :: rest.
Proof.
  assert (Hstep : client_step CapURL = Some _analyze_url) by reflexivity.
  assert (Hx : truthy (VStr "http://example.org") = true) by reflexivity.
  assert (Hhas : hasattr (st_heap url_plugin_state) url_plugin (query_name CapURL)
                 = true) by (vm_compute; reflexivity).
  split; [exact Hstep|]. split; [exact Hx|]. split; [exact Hhas|].
  destruct (requested_input_checked_then_analyzed_or_skipped CapURL _analyze_url
              url_plugin "http://example.org" url_plugin_state Hstep Hx)
    as (Hfirst & _ & _ & _).
  exact (Hfirst Hhas).
Defined.


(** The whole trace of the sample run: the file, IP and domain inputs are
    skipped with a warning and [None] is printed; the URL is analysed and
    its report printed before the IP is looked at. *)
Example url_plugin_trace :
  exists report,
    _main url_plugin_argv boot =
    (Raise (SystemExit 0),
     State (st_heap url_plugin_state) (st_clock boot) [Handler Console INFO]
       [EvLog Console INFO "Initializing analysis module: url_plugin";
        EvCall "can_analyze_file" [];
        EvLog Console WARNING (skip_warning CapFile);
        EvPrint VNone;
        EvCall "can_analyze_url" [];
        EvLog Console INFO "Analyzing URL: http://example.org";
        EvCall "analyze_url" [VStr "http://example.org"];
        EvPrint (VDict report);
        EvCall "can_analyze_ip" [];
        EvLog Console WARNING (skip_warning CapIP);
        EvPrint VNone;
        EvCall "can_analyze_domain" [];
        EvLog Console WARNING (skip_warning CapDomain);
        EvPrint VNone]) /\
    report !! "url" = Some (VStr "http://example.org") /\
    report !! "plugin_version" = Some (VStr "2.1") /\
    report !! "system_version" = Some (VStr "db-7").
Proof. eexists. split; [vm_compute; reflexivity|]. by vm_compute. Qed.

End client_behaviour.

Import client_behaviour.

(** * Using the plugin classes *)

Module plugin_usage.

Lemma capability_eqb_eq a b : capability_eqb a b = true <-> a = b.
Proof. destruct a, b; split; intros Hab; try reflexivity; discriminate. Qed.

Lemma operation_name_inj a b : operation_name a = operation_name b -> a = b.
Proof. destruct a, b; intros Hab; try reflexivity; discriminate. Qed.

(** A query reached through the instance runs the function of
    [AnalysisPlugin] and leaves only its call in the trace. *)
Lemma inherited_query_run `{UserCode} c f q l st :
  query_func c = Some f ->
  base_query c = Some q ->
  getattr (st_heap st) (VRef l) (query_name c) = Some (VMethod f l) ->
  call_method (VRef l) (query_name c) [] st =
  (Ok (VBool match getattr (st_heap st) (VRef l) (operation_name c) with
             | Some a => callable (st_heap st) a
             | None => false
             end),
   with_events st [EvCall (query_name c) []]).
Proof.
  intros Hf Hq Hg. rewrite (call_method_found _ _ _ _ _ Hg). simpl call_value.
  rewrite (query_func_run c f q _ Hf Hq), (base_query_run _ _ _ _ Hq).
  by rewrite has_callable_run.
Qed.

Lemma base_query_func c q : base_query c = Some q -> exists f, query_func c = Some f.
Proof. destruct c; simpl; intros Hq; inversion Hq; eauto. Qed.

(** X1.  Each convenience class supports its own kind of analysis and no other;
    [AnalysisPlugin] itself supports none. *)
Theorem convenience_class_supports_its_capability_only `{UserCode} :
  (forall c c' q pv sv st,
      base_query c' = Some q ->
      exists p st' b,
        instantiate (convenience_class c) (ctor_args pv sv) st = (Ok p, st') /\
        call_method p (query_name c') [] st'
          = (Ok (VBool b), with_events st' [EvCall (query_name c') []]) /\
        (b = true <-> c = c')) /\
  (forall c' q pv sv st,
      base_query c' = Some q ->
      exists p st',
        instantiate AnalysisPlugin (ctor_args pv sv) st = (Ok p, st') /\
        q p st' = (Ok (VBool false), st')).
Proof.
  split.
  - intros c c' q pv sv st Hq.
    destruct (convenience_instance c pv sv st) as (Hi & Hop & Hqs).
    destruct (base_query_func _ _ Hq) as [f Hf].
    eexists _, _, (capability_eqb c c'). split; [exact Hi|]. split.
    + assert (Hg := Hqs c'). rewrite Hf in Hg.
      set (st' := with_heap st _) in *.
      rewrite (inherited_query_run c' f q (length (st_heap st)) st' Hf Hq Hg).
      rewrite (Hop c'). by destruct (capability_eqb c c').
    + apply capability_eqb_eq.
  - intros c' q pv sv st Hq.
    assert (Hi : mro_lookup [AnalysisPlugin; object_] "__init__"
                 = Some (VFunc Fn_AnalysisPlugin_init)) by (by vm_compute).
    eexists _, _. split; [apply (instantiate_run _ _ _ _ _ mro_AnalysisPlugin Hi)|].
    rewrite (base_query_run _ _ _ _ Hq), has_callable_run.
    unfold with_heap. simpl st_heap. rewrite getattr_fresh.
    destruct (operation_name_not_version c') as [N1 N2].
    rewrite versions_lookup_other by assumption.
    assert (Hnone : mro_lookup [AnalysisPlugin; object_] (operation_name c') = None)
      by (destruct c'; by vm_compute).
    by rewrite Hnone.
Qed.

(** X2.  The constructor of [AnalysisPlugin] takes the plugin version and at most
    one more argument: a class that inherits it cannot be instantiated
    without arguments, nor with three. *)
Theorem base_constructor_arity `{UserCode} c m args st :
  mro c = Some m ->
  mro_lookup m "__init__" = Some (VFunc Fn_AnalysisPlugin_init) ->
  (length args = 1%nat \/ length args = 2%nat ->
   fst (instantiate c args st) = Ok (VRef (length (st_heap st)))) /\
  (length args = 0%nat \/ (2 < length args)%nat ->
   fst (instantiate c args st) = Raise TypeError).
Proof.
  intros Hm Hi. split.
  - intros Hlen. destruct args as [|pv [|sv [|x rest]]]; simpl in Hlen; try lia.
    + by rewrite (instantiate_run c m pv None st Hm Hi).
    + by rewrite (instantiate_run c m pv (Some sv) st Hm Hi).
  - intros Hlen. unfold instantiate. rewrite Hm.
    unfold mbind, M_bind, bind, get_heap, set_heap. simpl. rewrite Hi.
    destruct args as [|pv [|sv [|x rest]]]; simpl in Hlen; try lia; reflexivity.
Qed.

Lemma callable_after_store (h : heap) l o d a :
  h !! l = Some o ->
  callable (<[l := Object (ob_mro o) d]> h) a = callable h a.
Proof.
  intros Hl. destruct a; try reflexivity. simpl.
  destruct (decide (l0 = l)) as [->|Hne].
  - rewrite list_lookup_insert_eq by (by eapply lookup_lt_Some). by rewrite Hl.
  - by rewrite list_lookup_insert_ne by congruence.
Qed.

Lemma getattr_after_store (h : heap) l o name v name' :
  h !! l = Some o ->
  getattr (<[l := Object (ob_mro o) (<[name := v]> (ob_dict o))]> h) (VRef l) name' =
  if decide (name = name') then Some v else getattr h (VRef l) name'.
Proof.
  intros Hl. simpl.
  rewrite list_lookup_insert_eq by (by eapply lookup_lt_Some). simpl.
  rewrite Hl. destruct (decide (name = name')) as [->|Hne].
  - by rewrite lookup_insert_eq.
  - by rewrite lookup_insert_ne by exact Hne.
Qed.

Lemma store_attr_run l o name v st :
  st_heap st !! l = Some o ->
  store_attr (VRef l) name v st =
  (Ok tt, with_heap st (<[l := Object (ob_mro o) (<[name := v]> (ob_dict o))]> (st_heap st))).
Proof. intros Hl. unfold store_attr. by rewrite Hl. Qed.

(** X3.  What is assigned to the instance decides the query, whatever the class
    provides: after [self.analyze_x = v] the query for that capability
    answers [callable(v)], and the answers for the other capabilities are
    what they were. *)
Theorem assigned_operation_decides_query c q l o v st :
  base_query c = Some q ->
  st_heap st !! l = Some o ->
  exists st',
    store_attr (VRef l) (operation_name c) v st = (Ok tt, st') /\
    q (VRef l) st' = (Ok (VBool (callable (st_heap st) v)), st') /\
    (forall c' q', base_query c' = Some q' -> c' <> c ->
                   fst (q' (VRef l) st') = fst (q' (VRef l) st)).
Proof.
  intros Hq Hl. eexists. split; [apply (store_attr_run _ _ _ _ _ Hl)|].
  unfold with_heap. split.
  - rewrite (base_query_run _ _ _ _ Hq), has_callable_run. simpl st_heap.
    rewrite (getattr_after_store _ _ _ _ _ _ Hl).
    destruct (decide (operation_name c = operation_name c)); [|congruence].
    by rewrite (callable_after_store _ _ _ _ _ Hl).
  - intros c' q' Hq' Hne.
    rewrite !(base_query_run _ _ _ _ Hq'), !has_callable_run. simpl st_heap.
    rewrite (getattr_after_store _ _ _ _ _ _ Hl).
    destruct (decide (operation_name c = operation_name c')) as [Heq|_].
    + apply operation_name_inj in Heq. congruence.
    + destruct (getattr (st_heap st) (VRef l) (operation_name c')) as [a|];
        [|reflexivity].
      simpl fst. by rewrite (callable_after_store _ _ _ _ _ Hl).
Qed.

(** X4.  The report can be prepared exactly when the instance has both version
    attributes; without one of them the call raises [AttributeError] and
    changes nothing. *)
Theorem report_needs_both_versions :
  (forall self st,
      (exists d, prepare_analysis_report_dictionary self st = (Ok (VDict d), st)) <->
      is_Some (getattr (st_heap st) self "plugin_version") /\
      is_Some (getattr (st_heap st) self "system_version")) /\
  (forall self st,
      getattr (st_heap st) self "plugin_version" = None \/
      getattr (st_heap st) self "system_version" = None ->
      prepare_analysis_report_dictionary self st = (Raise AttributeError, st)).
Proof.
  assert (Hmissing : forall self st,
             getattr (st_heap st) self "plugin_version" = None \/
             getattr (st_heap st) self "system_version" = None ->
             prepare_analysis_report_dictionary self st = (Raise AttributeError, st)).
  { intros self st Hnone.
    unfold prepare_analysis_report_dictionary, mbind, M_bind, bind, load_attr,
      datetime_now.
    destruct (getattr (st_heap st) self "plugin_version") as [pv|]; [|reflexivity].
    destruct Hnone as [Hn|Hn]; [discriminate|]. by rewrite Hn. }
  split; [|exact Hmissing].
  intros self st. split.
  - intros [d Hd].
    destruct (getattr (st_heap st) self "plugin_version") as [pv|] eqn:Hp.
    + destruct (getattr (st_heap st) self "system_version") as [sv|] eqn:Hs;
        [by eauto|].
      rewrite (Hmissing self st) in Hd by (by right). discriminate.
    + rewrite (Hmissing self st) in Hd by (by left). discriminate.
  - intros [[pv Hp] [sv Hs]]. eexists. by apply prepare_run.
Qed.

(** X5.  [AnalysisPlugin.__init__] writes the two version attributes of the
    instance and nothing else: every other attribute, every other object,
    the log handlers and the output stay as they were.  Run again, it
    replaces the versions. *)
Theorem init_writes_only_the_versions l o pv sv st :
  st_heap st !! l = Some o ->
  exists st',
    __init__ (VRef l) pv sv st = (Ok VNone, st') /\
    getattr (st_heap st') (VRef l) "plugin_version" = Some pv /\
    getattr (st_heap st') (VRef l) "system_version" = Some sv /\
    (forall name, name <> "plugin_version" -> name <> "system_version" ->
                  getattr (st_heap st') (VRef l) name
                    = getattr (st_heap st) (VRef l) name) /\
    (forall l', l' <> l -> st_heap st' !! l' = st_heap st !! l') /\
    same_io st st'.
Proof.
  intros Hl. eexists. split; [apply (init_run _ _ _ _ _ Hl)|].
  unfold with_heap. simpl st_heap.
  assert (Hget : forall name,
             getattr (<[l := Object (ob_mro o)
                               (<["system_version" := sv]>
                                  (<["plugin_version" := pv]> (ob_dict o)))]>
                        (st_heap st)) (VRef l) name =
             match <["system_version" := sv]>
                     (<["plugin_version" := pv]> (ob_dict o)) !! name with
             | Some a => Some a
             | None => bind_method l <$> mro_lookup (ob_mro o) name
             end).
  { intros name. simpl.
    by rewrite list_lookup_insert_eq by (by eapply lookup_lt_Some). }
  split; [|split; [|split; [|split]]].
  - rewrite Hget. rewrite lookup_insert_ne by discriminate.
    by rewrite lookup_insert_eq.
  - rewrite Hget. by rewrite lookup_insert_eq.
  - intros name N1 N2. rewrite Hget.
    rewrite lookup_insert_ne by congruence.
    rewrite lookup_insert_ne by congruence.
    simpl. by rewrite Hl.
  - intros l' Hne. by rewrite list_lookup_insert_ne by congruence.
  - by repeat split.
Qed.

(** *** The theorems on sample instances *)

Lemma base_constructor_arity_witness :
  fst (instantiate AnalysisPluginFile [VStr "1.0"] boot) = Ok (VRef 0) /\
  fst (instantiate AnalysisPluginFile [VStr "1.0"; VStr "db-7"] boot) = Ok (VRef 0) /\
  fst (instantiate AnalysisPluginFile [] boot) = Raise TypeError /\
  fst (instantiate AnalysisPluginFile [VStr "1.0"; VStr "db-7"; VNone] boot)
    = Raise TypeError.
Proof.
  pose proof (fun args =>
    base_constructor_arity AnalysisPluginFile (convenience_mro CapFile) args boot
      (mro_convenience CapFile) (convenience_init CapFile)) as Harity.
  split; [|split; [|split]].
  - apply (proj1 (Harity _)). left. reflexivity.
  - apply (proj1 (Harity _)). right. reflexivity.
  - apply (proj2 (Harity _)). left. reflexivity.
  - apply (proj2 (Harity _)). right. simpl. lia.
Defined.

Lemma assigned_operation_witness :
  exists st',
    store_attr file_plugin "analyze_url" (VStr "not a function") file_plugin_state
      = (Ok tt, st') /\
    can_analyze_url file_plugin st' = (Ok (VBool false), st') /\
    fst (can_analyze_file file_plugin st') = Ok (VBool true).
Proof.
  assert (Hq : base_query CapURL = Some can_analyze_url) by reflexivity.
  assert (Hl : st_heap file_plugin_state !! 0%nat
               = Some (Object (convenience_mro CapFile) (versions (VStr "1.0") VNone)))
    by reflexivity.
  destruct (assigned_operation_decides_query CapURL can_analyze_url 0 _
              (VStr "not a function") file_plugin_state Hq Hl)
    as (st' & Hstore & Hans & Hother).
  exists st'. split; [exact Hstore|]. split; [exact Hans|].
  transitivity (fst (can_analyze_file (VRef 0) file_plugin_state)).
  - exact (Hother CapFile can_analyze_file eq_refl ltac:(discriminate)).
  - reflexivity.
Defined.

Lemma init_writes_only_the_versions_witness :
  exists st',
    __init__ file_plugin (VStr "1.1") (VStr "db-8") file_plugin_state = (Ok VNone, st') /\
    getattr (st_heap st') file_plugin "plugin_version" = Some (VStr "1.1") /\
    getattr (st_heap st') file_plugin "system_version" = Some (VStr "db-8") /\
    getattr (st_heap st') file_plugin "analyze_file"
      = getattr (st_heap file_plugin_state) file_plugin "analyze_file".
Proof.
  assert (Hl : st_heap file_plugin_state !! 0%nat
               = Some (Object (convenience_mro CapFile) (versions (VStr "1.0") VNone)))
    by reflexivity.
  destruct (init_writes_only_the_versions 0 _ (VStr "1.1") (VStr "db-8")
              file_plugin_state Hl)
    as (st' & Hrun & Hpv & Hsv & Hrest & _ & _).
  exists st'. split; [exact Hrun|]. split; [exact Hpv|]. split; [exact Hsv|].
  apply Hrest; discriminate.
Defined.

(** *** Classes built on the package *)

Lemma mro_subclass name c body :
  mro (Class name [convenience_class c] body)
  = Some (Class name [convenience_class c] body :: convenience_mro c).
Proof. destruct c; reflexivity. Qed.

(** X6.  A plugin class written the intended way, [class P(AnalysisPluginX)] with
    its own [analyze_x]: the class is linearised in front of the convenience
    class, so on its instances the operation is the author's function, not
    the placeholder of the mixin, and the query for it answers [True]. *)
Theorem override_replaces_placeholder `{UserCode} c name body id l o x st :
  body !! operation_name c = Some (VFunc (Fn_user id)) ->
  st_heap st !! l = Some o ->
  mro (Class name [convenience_class c] body) = Some (ob_mro o) ->
  ob_dict o !! operation_name c = None ->
  ob_mro o = Class name [convenience_class c] body :: convenience_mro c /\
  call_method (VRef l) (operation_name c) [x] st
    = run_user id [VRef l; x] (with_events st [EvCall (operation_name c) [x]]) /\
  (forall q, base_query c = Some q -> q (VRef l) st = (Ok (VBool true), st)).
Proof.
  intros Hbody Hl Hmro Hd.
  assert (Hm : ob_mro o = Class name [convenience_class c] body :: convenience_mro c).
  { rewrite mro_subclass in Hmro. by inversion Hmro. }
  assert (Hg : getattr (st_heap st) (VRef l) (operation_name c)
               = Some (VMethod (Fn_user id) l)).
  { rewrite (getattr_inherited _ _ _ _ Hl Hd), Hm. simpl. by rewrite Hbody. }
  split; [exact Hm|]. split.
  - by rewrite (call_method_found _ _ _ _ _ Hg).
  - intros q Hq. by rewrite (base_query_run _ _ _ _ Hq), has_callable_run, Hg.
Qed.

Lemma override_replaces_placeholder_witness :
  ob_mro (Object [UrlPlugin; AnalysisPluginURL; AnalysisPlugin; URLAnalysisMixin; object_]
                 (versions (VStr "2.1") (VStr "db-7")))
    = UrlPlugin :: convenience_mro CapURL /\
  call_method url_plugin "analyze_url" [VStr "http://example.org"] url_plugin_state
    = run_user 2 [url_plugin; VStr "http://example.org"]
        (with_events url_plugin_state [EvCall "analyze_url" [VStr "http://example.org"]]) /\
  can_analyze_url url_plugin url_plugin_state = (Ok (VBool true), url_plugin_state).
Proof.
  assert (Hbody : c_dict UrlPlugin !! operation_name CapURL = Some (VFunc (Fn_user 2)))
    by reflexivity.
  assert (Hl : st_heap url_plugin_state !! 0%nat
               = Some (Object [UrlPlugin; AnalysisPluginURL; AnalysisPlugin;
                               URLAnalysisMixin; object_]
                              (versions (VStr "2.1") (VStr "db-7"))))
    by reflexivity.
  assert (Hmro : mro (Class "UrlPlugin" [convenience_class CapURL] (c_dict UrlPlugin))
                 = Some [UrlPlugin; AnalysisPluginURL; AnalysisPlugin;
                         URLAnalysisMixin; object_])
    by reflexivity.
  assert (Hd : versions (VStr "2.1") (VStr "db-7") !! operation_name CapURL = None)
    by reflexivity.
  destruct (override_replaces_placeholder CapURL "UrlPlugin" (c_dict UrlPlugin) 2 0 _
              (VStr "http://example.org") url_plugin_state Hbody Hl Hmro Hd)
    as (Hm & Hcall & Hquery).
  split; [exact Hm|]. split; [exact Hcall|]. exact (Hquery _ eq_refl).
Defined.

Lemma mixin_operation c c' :
  c_dict (mixin c) !! operation_name c' =
  if capability_eqb c' c then Some (VFunc (placeholder c)) else None.
Proof. destruct c, c'; reflexivity. Qed.

Lemma base_has_no_operation c : c_dict AnalysisPlugin !! operation_name c = None.
Proof. destruct c; reflexivity. Qed.

Lemma mro_two_mixins name c1 c2 :
  c1 <> c2 ->
  mro (Class name [AnalysisPlugin; mixin c1; mixin c2] ∅)
  = Some [Class name [AnalysisPlugin; mixin c1; mixin c2] ∅;
          AnalysisPlugin; mixin c1; mixin c2; object_].
Proof. intros Hne. destruct c1, c2; first [congruence | reflexivity]. Qed.

(** X7.  Mixins combine: a class that lists [AnalysisPlugin] and two different
    mixins supports exactly those two kinds of analysis.  Listing a mixin
    twice gives no class at all. *)
Theorem mixins_combine `{UserCode} name c1 c2 pv sv st :
  c1 <> c2 ->
  (exists p st',
     instantiate (Class name [AnalysisPlugin; mixin c1; mixin c2] ∅) (ctor_args pv sv) st
       = (Ok p, st') /\
     forall c q, base_query c = Some q ->
                 q p st' = (Ok (VBool (capability_eqb c c1 || capability_eqb c c2)), st')) /\
  mro (Class name [AnalysisPlugin; mixin c1; mixin c1] ∅) = None.
Proof.
  intros Hne. split; [|by destruct c1].
  pose proof (mro_two_mixins name c1 c2 Hne) as Hm.
  set (P := Class name [AnalysisPlugin; mixin c1; mixin c2] ∅) in *.
  assert (Hi : mro_lookup [P; AnalysisPlugin; mixin c1; mixin c2; object_] "__init__"
               = Some (VFunc Fn_AnalysisPlugin_init)) by reflexivity.
  assert (Hop : forall c,
             mro_lookup [P; AnalysisPlugin; mixin c1; mixin c2; object_]
               (operation_name c) =
             if capability_eqb c c1 then Some (VFunc (placeholder c1))
             else if capability_eqb c c2 then Some (VFunc (placeholder c2))
             else None).
  { intros c. subst P. cbn [mro_lookup c_dict].
    rewrite lookup_empty, base_has_no_operation, !mixin_operation.
    by destruct (capability_eqb c c1), (capability_eqb c c2). }
  exists (VRef (length (st_heap st))),
    (with_heap st (st_heap st ++
       [Object [P; AnalysisPlugin; mixin c1; mixin c2; object_]
               (versions pv (default VNone sv))])).
  split; [apply (instantiate_run _ _ _ _ _ Hm Hi)|].
  intros c q Hq. rewrite (base_query_run _ _ _ _ Hq), has_callable_run.
  unfold with_heap. simpl st_heap. rewrite getattr_fresh.
  destruct (operation_name_not_version c) as [N1 N2].
  rewrite versions_lookup_other by assumption.
  rewrite Hop.
  by destruct (capability_eqb c c1), (capability_eqb c c2).
Qed.

Lemma mixins_combine_witness :
  exists p st',
    instantiate (Class "FileAndUrl" [AnalysisPlugin; FileAnalysisMixin; URLAnalysisMixin] ∅)
      [VStr "1.0"] boot = (Ok p, st') /\
    can_analyze_file p st' = (Ok (VBool true), st') /\
    can_analyze_url p st' = (Ok (VBool true), st') /\
    can_analyze_ip p st' = (Ok (VBool false), st').
Proof.
  assert (Hne : CapFile <> CapURL) by discriminate.
  destruct (mixins_combine "FileAndUrl" CapFile CapURL (VStr "1.0") None boot Hne)
    as [(p & st' & Hi & Hq) _].
  exists p, st'. split; [exact Hi|].
  split; [exact (Hq CapFile _ eq_refl)|].
  split; [exact (Hq CapURL _ eq_refl) | exact (Hq CapIP _ eq_refl)].
Defined.

End plugin_usage.

Import plugin_usage.

(** * The names the package exports *)

Module package_exports.

Import package_init.

Lemma import_all_ok ns names :
  (exists bound, import_all ns names = Ok bound) <->
  Forall (fun name => is_Some (ns !! name)) names.
Proof.
  induction names as [|name rest IH]; simpl.
  - split; [intros _; constructor | intros _; by eexists].
  - split.
    + intros [bound Hb]. destruct (ns !! name) as [c|] eqn:Hn; [|discriminate].
      destruct (import_all ns rest) as [l|e] eqn:Hr; [|discriminate].
      constructor; [by rewrite Hn | apply IH; by eexists].
    + intros Hall. inversion Hall as [|? ? [c Hc] Hrest]; subst.
      rewrite Hc. apply IH in Hrest. destruct Hrest as [l ->]. by eexists.
Qed.

(** X8.  [__all__] has ten entries for the eleven imported names: the missing
    comma fuses ['URLAnalysisMixin'] and ['AnalysisPluginString'] into one
    name that the package does not bind.  So [from common_analysis_base
    import *] raises [AttributeError], and the two classes, though bound,
    are not exported; every other entry is bound. *)
Theorem star_import_fails :
  import_star = Raise AttributeError /\
  length __all__ = 10%nat /\
  length imported = 11%nat /\
  In "URLAnalysisMixinAnalysisPluginString" __all__ /\
  namespace !! "URLAnalysisMixinAnalysisPluginString" = None /\
  (forall name, In name __all__ ->
                name <> "URLAnalysisMixinAnalysisPluginString" ->
                is_Some (namespace !! name)) /\
  (is_Some (namespace !! "URLAnalysisMixin") /\ ~ In "URLAnalysisMixin" __all__) /\
  (is_Some (namespace !! "AnalysisPluginString") /\
   ~ In "AnalysisPluginString" __all__).
Proof.
  assert (Hbound : forall name c, namespace !! name = Some c ->
                                  is_Some (namespace !! name)).
  { intros name c Hc. rewrite Hc. by eexists. }
  split; [by vm_compute|]. split; [reflexivity|]. split; [reflexivity|].
  split; [vm_compute; tauto|]. split; [by vm_compute|].
  split; [|split; split].
  - intros name Hin Hne. vm_compute in Hin.
    repeat (destruct Hin as [<- | Hin];
            [first [congruence | eapply Hbound; vm_compute; reflexivity]|]).
    destruct Hin.
  - eapply Hbound. vm_compute. reflexivity.
  - intros Hin. vm_compute in Hin.
    repeat (destruct Hin as [Hin | Hin]; [discriminate|]). exact Hin.
  - eapply Hbound. vm_compute. reflexivity.
  - intros Hin. vm_compute in Hin.
    repeat (destruct Hin as [Hin | Hin]; [discriminate|]). exact Hin.
Qed.

End package_exports.

(** * Runs of the command-line client *)

Module client_runs.

Section Runs.
Context `{UserCode} `{Host}.

(** *** Logging *)

(** What [setLevel] makes of [getattr(logging, name, None)]. *)
Lemma level_of_name name :
  check_level (logging_getattr name) =
  match name_to_level name with
  | Some n => Ok n
  | None => Raise (if String.eqb name "BASIC_FORMAT" then ValueError else TypeError)
  end.
Proof.
  unfold logging_getattr.
  destruct (name_to_level name) as [n|]; [reflexivity|].
  by destruct (String.eqb name "BASIC_FORMAT").
Qed.


(** X10.  With a log file, the file is opened first and the level checked after:
    a file that cannot be opened is an [OSError] whatever the level; a level
    name the logging module does not know is a [TypeError] (a [ValueError]
    for [basic_format], which names a string of the module); a known name,
    in any letter case, adds the file handler at that level after the
    console handler.  When set-up fails the console handler stays
    installed.  The level name is taken to be ASCII text. *)
Theorem log_file_setup args path st :
  log_file args = Some path ->
  truthy (VStr path) = true ->
  ascii_text (log_level args) = true ->
  let console := State (st_heap st) (st_clock st)
                       (st_handlers st ++ [Handler Console INFO]) (st_events st) in
  (open_log_file path = false -> _setup_logging args st = (Raise OSError, console)) /\
  (forall n, open_log_file path = true ->
             name_to_level (upper (log_level args)) = Some n ->
             _setup_logging args st =
             (Ok tt, State (st_heap st) (st_clock st)
                           (st_handlers st ++ [Handler Console INFO; Handler (LogFile path) n])
                           (st_events st))) /\
  (open_log_file path = true ->
   name_to_level (upper (log_level args)) = None ->
   exists e, _setup_logging args st = (Raise e, console) /\
             (e = ValueError \/ e = TypeError) /\
             (e = ValueError <-> upper (log_level args) = "BASIC_FORMAT")).
Proof.
  intros Hf Hp _ console. subst console.
  unfold _setup_logging. rewrite Hf, Hp, level_of_name.
  unfold mbind, M_bind, bind, add_handler. simpl.
  split; [|split].
  - by intros ->.
  - intros n -> ->. simpl. by rewrite <- app_assoc.
  - intros -> ->.
    destruct (String.eqb (upper (log_level args)) "BASIC_FORMAT") eqn:Hb.
    + exists ValueError. split; [reflexivity|]. split; [by left|].
      split; [intros _; by apply String.eqb_eq | reflexivity].
    + exists TypeError. split; [reflexivity|]. split; [by right|].
      split; [discriminate|]. intros Heq. apply String.eqb_eq in Heq. congruence.
Qed.

Lemma handlers_after_setup args st st1 :
  st_handlers st = [] ->
  _setup_logging args st = (Ok tt, st1) ->
  st_handlers st1 =
  Handler Console INFO ::
  match log_file args with
  | Some path =>
      if truthy (VStr path) then
        match name_to_level (upper (log_level args)) with
        | Some n => [Handler (LogFile path) n]
        | None => []
        end
      else []
  | None => []
  end.
Proof.
  intros Hnil. unfold _setup_logging. rewrite level_of_name.
  unfold mbind, M_bind, bind, mret, M_ret, ret, raise, add_handler.
  rewrite Hnil. cbn [st_handlers st_heap st_clock st_events app].
  destruct (log_file args) as [path|]; [|by intros [= <-]].
  destruct (truthy (VStr path)); [|by intros [= <-]].
  destruct (open_log_file path); [|discriminate].
  destruct (name_to_level (upper (log_level args))) as [n|]; [|discriminate].
  by intros [= <-].
Qed.

Lemma routed_records args st st1 level msg :
  st_handlers st = [] ->
  _setup_logging args st = (Ok tt, st1) ->
  INFO <= level ->
  records (st_handlers st1) level msg = routed args level msg.
Proof.
  intros Hnil Hs Hle. rewrite (handlers_after_setup args st st1 Hnil Hs).
  unfold routed, records. cbn [flat_map h_level h_sink].
  replace (Z.leb INFO level) with true by (symmetry; by apply Z.leb_le).
  replace (Z.leb DEBUG level) with true
    by (symmetry; apply Z.leb_le; unfold INFO, DEBUG in *; lia).
  cbn [andb app]. f_equal.
  destruct (log_file args) as [path|]; [|reflexivity].
  destruct (truthy (VStr path)); [|reflexivity].
  destruct (name_to_level (upper (log_level args))) as [n|]; [|reflexivity].
  cbn [flat_map h_level h_sink]. rewrite andb_true_r.
  by destruct (Z.leb n level).
Qed.

(** X11.  Once logging is set up in a process that had no handler, a record from
    [INFO] up goes to the console, and after it to the log file when there
    is one and the record reaches the level asked for; below [INFO] only
    the log file can get it. *)
Theorem records_after_setup args st st1 level msg :
  st_handlers st = [] ->
  _setup_logging args st = (Ok tt, st1) ->
  (INFO <= level -> log level msg st1 = (Ok tt, with_events st1 (routed args level msg))) /\
  (level < INFO ->
   Forall (fun e => exists path, log_file args = Some path /\ e = EvLog (LogFile path) level msg)
          (records (st_handlers st1) level msg)).
Proof.
  intros Hnil Hs. split.
  - intros Hle. by rewrite log_run, (routed_records args st st1 level msg Hnil Hs Hle).
  - intros Hlt. rewrite (handlers_after_setup args st st1 Hnil Hs).
    unfold records. cbn [flat_map h_level h_sink].
    replace (Z.leb INFO level) with false by (symmetry; by apply Z.leb_gt).
    cbn [andb app].
    destruct (log_file args) as [path|]; [|constructor].
    destruct (truthy (VStr path)); [|constructor].
    destruct (name_to_level (upper (log_level args))) as [n|]; [|constructor].
    cbn [flat_map h_level h_sink].
    destruct (Z.leb n level && Z.leb DEBUG level); cbn [app]; repeat constructor.
    by exists path.
Qed.

(** *** Loading the class *)

(** X12.  The loader returns exactly when a module was named, it can be imported
    and it binds [analysis_class]; what it returns is whatever that name is
    bound to, class or not, and its only trace is the record that announces
    the module. *)
Theorem load_returns_iff args st c st' :
  _load_analysis_class_from_module args st = (Ok c, st') <->
  exists name m,
    analysis_module args = Some name /\
    import_module name = Ok m /\
    m !! "analysis_class" = Some c /\
    st' = with_events st (records (st_handlers st) INFO
                            ("Initializing analysis module: " +:+ name)).
Proof.
  unfold _load_analysis_class_from_module, mbind, M_bind, bind.
  split.
  - destruct (analysis_module args) as [name|]; rewrite log_run; [|discriminate].
    destruct (import_module name) as [m|e] eqn:Hi.
    + destruct (m !! "analysis_class") as [c'|] eqn:Hc.
      * intros Hr. inversion Hr; subst. by exists name, m.
      * rewrite log_run. discriminate.
    + destruct e; try rewrite log_run; discriminate.
  - intros (name & m & -> & Hi & Hc & ->). by rewrite log_run, Hi, Hc.
Qed.

(** X13.  Only [ImportError] and [AttributeError] are handled: any other
    exception of the import leaves the loader as it is, and no error record
    is written for it. *)
Theorem other_import_errors_pass_through args name e st :
  analysis_module args = Some name ->
  import_module name = Raise e ->
  e <> ImportError -> e <> AttributeError ->
  _load_analysis_class_from_module args st =
  (Raise e, with_events st (records (st_handlers st) INFO
                              ("Initializing analysis module: " +:+ name))).
Proof.
  intros Hm Hi N1 N2.
  unfold _load_analysis_class_from_module, mbind, M_bind, bind.
  rewrite Hm, log_run, Hi. by destruct e.
Qed.

Lemma records_are_logs handlers level msg :
  Forall (fun e => is_log e = true) (records handlers level msg).
Proof.
  unfold records. induction handlers as [|hd tl IH]; simpl; [constructor|].
  destruct (Z.leb (h_level hd) level && Z.leb DEBUG level); simpl;
    [constructor; [reflexivity|]|]; exact IH.
Qed.

(** The loader touches neither the heap nor the handlers, and leaves only
    log records. *)
Lemma load_frame args st :
  let st' := snd (_load_analysis_class_from_module args st) in
  st_heap st' = st_heap st /\
  exists evs, st_events st' = st_events st ++ evs /\
              Forall (fun e => is_log e = true) evs.
Proof.
  assert (Hone : forall l1 m1, exists evs,
             st_events (with_events st (records (st_handlers st) l1 m1))
             = st_events st ++ evs /\ Forall (fun e => is_log e = true) evs).
  { intros l1 m1. eexists. split; [reflexivity | apply records_are_logs]. }
  assert (Htwo : forall l1 m1 l2 m2, exists evs,
             st_events (with_events (with_events st (records (st_handlers st) l1 m1))
                          (records (st_handlers st) l2 m2))
             = st_events st ++ evs /\ Forall (fun e => is_log e = true) evs).
  { intros l1 m1 l2 m2. eexists. split; [simpl; by rewrite <- app_assoc|].
    apply Forall_app. split; apply records_are_logs. }
  unfold _load_analysis_class_from_module, mbind, M_bind, bind.
  destruct (analysis_module args) as [name|]; rewrite log_run.
  2:{ simpl. split; [reflexivity | apply Hone]. }
  destruct (import_module name) as [m|e].
  - destruct (m !! "analysis_class") as [c|]; [|rewrite log_run]; simpl;
      (split; [reflexivity|]); [apply Hone | apply Htwo].
  - destruct e; try rewrite log_run; simpl; (split; [reflexivity|]);
      first [apply Hone | apply Htwo].
Qed.

Lemma load_unresolved args st :
  (forall name, analysis_module args = Some name -> resolves name = false) ->
  exists e, fst (_load_analysis_class_from_module args st) = Raise e.
Proof.
  intros Hun. unfold _load_analysis_class_from_module, mbind, M_bind, bind.
  destruct (analysis_module args) as [name|]; rewrite log_run; [|by eexists].
  specialize (Hun name eq_refl). unfold resolves in Hun.
  destruct (import_module name) as [m|e].
  - destruct (m !! "analysis_class"); [discriminate|]. rewrite log_run. by eexists.
  - destruct e; try rewrite log_run; by eexists.
Qed.

Lemma setup_logging_frame args st :
  st_heap (snd (_setup_logging args st)) = st_heap st /\
  st_events (snd (_setup_logging args st)) = st_events st.
Proof.
  unfold _setup_logging, mbind, M_bind, bind, add_handler.
  destruct (log_file args) as [path|]; [|by split].
  destruct (truthy (VStr path)); [|by split].
  destruct (open_log_file path); [|by split].
  by destruct (check_level _).
Qed.

(** *** The analyses *)

Lemma no_inputs args :
  inputs_given args = 0%nat ->
  given (file args) = false /\ given (url args) = false /\
  given (ip args) = false /\ given (domain args) = false.
Proof.
  unfold inputs_given. simpl.
  destruct (given (file args)), (given (url args)), (given (ip args)),
    (given (domain args)); simpl; intros Hn; try discriminate; by repeat split.
Qed.

(** X14.  With no input on the command line the analyzer is still constructed,
    and that is all: no query, no record, no output. *)
Theorem analyze_without_inputs args cls st :
  inputs_given args = 0%nat ->
  _analyze args cls st =
    match construct cls st with
    | (Ok _, st') => (Ok tt, st')
    | (Raise e, st') => (Raise e, st')
    end /\
  st_events (snd (_analyze args cls st)) = st_events st.
Proof.
  intros Hn. destruct (no_inputs args Hn) as (Hf & Hu & Hi & Hd).
  assert (Hrun : _analyze args cls st =
                 match construct cls st with
                 | (Ok _, st') => (Ok tt, st')
                 | (Raise e, st') => (Raise e, st')
                 end).
  { unfold _analyze, mbind, M_bind, bind.
    destruct (construct cls st) as [[analyzer|e] st0]; [|reflexivity].
    by rewrite !requested_skip by assumption. }
  split; [exact Hrun|]. rewrite Hrun.
  destruct (quiet_construct cls st) as (He & _ & _).
  by destruct (construct cls st) as [[analyzer|e] st0].
Qed.

Lemma instantiate_no_args c m st :
  mro c = Some m ->
  mro_lookup m "__init__" = Some (VFunc Fn_AnalysisPlugin_init) ->
  fst (instantiate c [] st) = Raise TypeError.
Proof.
  intros Hm Hi. unfold instantiate. rewrite Hm.
  unfold mbind, M_bind, bind, get_heap, set_heap. simpl. by rewrite Hi.
Qed.

(** X15.  The client calls [analysis_class()] without arguments, and
    [AnalysisPlugin.__init__] requires the plugin version: a class that does
    not define an [__init__] of its own, as the five convenience classes,
    cannot be run by the client.  The run ends in [TypeError] before any
    input is looked at. *)
Theorem client_needs_constructor_without_arguments args c m st :
  mro c = Some m ->
  mro_lookup m "__init__" = Some (VFunc Fn_AnalysisPlugin_init) ->
  fst (_analyze args (EClass c) st) = Raise TypeError /\
  st_events (snd (_analyze args (EClass c) st)) = st_events st.
Proof.
  intros Hm Hi. pose proof (instantiate_no_args c m st Hm Hi) as Hr.
  destruct (quiet_construct (EClass c) st) as (He & _ & _).
  unfold _analyze, mbind, M_bind, bind. simpl construct in *.
  destruct (instantiate c [] st) as [[p|e] st0]; simpl in Hr; [discriminate|].
  inversion Hr; subst e. by split.
Qed.

(** X16.  The client asks before it calls: an analyzer that has the operation but
    not the query method of [AnalysisPlugin] is not analysed with, the step
    ends in [AttributeError] and leaves no trace. *)
Theorem step_needs_query_method c step analyzer x st :
  client_step c = Some step ->
  getattr (st_heap st) analyzer (query_name c) = None ->
  step analyzer x st = (Raise AttributeError, st) /\
  (truthy (VStr x) = true ->
   requested (Some x) (step analyzer) st = (Raise AttributeError, st)).
Proof.
  intros Hstep Hg. rewrite (client_step_schema _ _ Hstep).
  assert (Hrun : analyze_step c analyzer x st = (Raise AttributeError, st)).
  { unfold analyze_step, mbind, M_bind, bind.
    by rewrite (call_method_missing _ _ _ _ Hg). }
  split; [exact Hrun|]. intros Hx. unfold requested. rewrite Hx.
  unfold mbind, M_bind, bind. by rewrite Hrun.
Qed.

(** X17.  For an analyzer that inherits the query of [AnalysisPlugin], a step of
    the client comes down to the operation attribute: when it is there and
    callable, the step is the call of the operation on the input, after the
    query and the information record; when it is not, the step returns
    [None] after the query and the warning. *)
Theorem inherited_query_decides_step c step f l x st :
  client_step c = Some step ->
  query_func c = Some f ->
  getattr (st_heap st) (VRef l) (query_name c) = Some (VMethod f l) ->
  let asked := with_events st [EvCall (query_name c) []] in
  (exposes_callable (st_heap st) (VRef l) (operation_name c) ->
   step (VRef l) x st =
   call_method (VRef l) (operation_name c) [VStr x]
     (with_events asked (records (st_handlers st) INFO (info_prefix c +:+ x)))) /\
  (~ exposes_callable (st_heap st) (VRef l) (operation_name c) ->
   step (VRef l) x st =
   (Ok VNone, with_events asked (records (st_handlers st) WARNING (skip_warning c)))).
Proof.
  intros Hstep Hf Hg asked. subst asked.
  rewrite (client_step_schema _ _ Hstep).
  assert (Hq : exists q, base_query c = Some q) by (destruct c; simpl; eauto; discriminate).
  destruct Hq as [q Hq].
  unfold analyze_step, mbind, M_bind, bind.
  rewrite (inherited_query_run c f q l st Hf Hq Hg). unfold exposes_callable.
  destruct (getattr (st_heap st) (VRef l) (operation_name c)) as [a|].
  - destruct (callable (st_heap st) a) eqn:Hc; cbv beta iota;
      [change (truthy (VBool true)) with true | change (truthy (VBool false)) with false];
      cbv beta iota; rewrite log_run.
    + split; [reflexivity|]. intros Hno. destruct Hno. by exists a.
    + split; [|reflexivity]. intros (a' & Ha & Hc'). inversion Ha; subst a'. congruence.
  - cbv beta iota. change (truthy (VBool false)) with false.
    cbv beta iota. rewrite log_run.
    split; [|reflexivity]. intros (a' & Ha & _). discriminate.
Qed.

Lemma prints_app a b : prints (a ++ b) = prints a ++ prints b.
Proof. apply List.filter_app. Qed.

Lemma prints_records handlers level msg : prints (records handlers level msg) = [].
Proof.
  unfold records, prints. induction handlers as [|hd tl IH]; [reflexivity|].
  simpl. rewrite List.filter_app, IH, app_nil_r.
  by destruct (Z.leb (h_level hd) level && Z.leb DEBUG level).
Qed.

(** A block that returned has printed once when its input was given, and
    not at all when it was not. *)
Lemma requested_prints c x analyzer st st' :
  requested x (analyze_step c analyzer) st = (Ok tt, st') ->
  exists b, st_events st' = st_events st ++ b /\
            length (prints b) = if given x then 1%nat else 0%nat.
Proof.
  destruct (given x) eqn:Hgiven.
  2:{ rewrite requested_skip by exact Hgiven. intros Hr. inversion Hr; subst st'.
      exists []. by rewrite app_nil_r. }
  destruct x as [s|]; [|discriminate]. unfold given in Hgiven.
  rewrite (requested_run _ _ _ _ Hgiven).
  destruct (call_method analyzer (query_name c) [] st) as [[ok|e] st1] eqn:Hq;
    [|discriminate].
  destruct (query_returned _ _ _ _ _ _ Hq) as (_ & He).
  destruct (truthy ok).
  - pose proof (call_method_io analyzer (operation_name c) [VStr s]
      (with_events st1 (records (st_handlers st1) INFO (info_prefix c +:+ s))))
      as (_ & _ & He2).
    destruct (call_method analyzer (operation_name c) [VStr s] _) as [[r|e] st3];
      [|discriminate].
    intros Hr. inversion Hr; subst st'. simpl in He2 |- *. rewrite He2, He.
    eexists. split; [rewrite <- !app_assoc; reflexivity|].
    rewrite !prints_app, prints_records.
    by destruct (hasattr _ analyzer (operation_name c)).
  - intros Hr. inversion Hr; subst st'. simpl. rewrite He.
    eexists. split; [rewrite <- !app_assoc; reflexivity|].
    by rewrite !prints_app, prints_records.
Qed.

(** X18.  In a run of [_analyze] that returns, [_pretty_print] has been called
    exactly once for each input that was given, with a report or with
    [None]; the events record what the client prints, not what the code of
    a plugin may write by itself. *)
Theorem one_print_per_input args cls st :
  fst (_analyze args cls st) = Ok tt ->
  exists evs,
    st_events (snd (_analyze args cls st)) = st_events st ++ evs /\
    length (prints evs) = inputs_given args.
Proof.
  unfold _analyze, mbind, M_bind, bind.
  destruct (quiet_construct cls st) as (E0 & _ & _).
  destruct (construct cls st) as [[analyzer|e] st0]; [|discriminate]. simpl in E0.
  change (_analyze_file analyzer) with (analyze_step CapFile analyzer).
  change (_analyze_url analyzer) with (analyze_step CapURL analyzer).
  change (_analyze_ip analyzer) with (analyze_step CapIP analyzer).
  change (_analyze_domain analyzer) with (analyze_step CapDomain analyzer).
  destruct (requested (file args) (analyze_step CapFile analyzer) st0)
    as [[[]|e] st1] eqn:H1; [|discriminate].
  destruct (requested (url args) (analyze_step CapURL analyzer) st1)
    as [[[]|e] st2] eqn:H2; [|discriminate].
  destruct (requested (ip args) (analyze_step CapIP analyzer) st2)
    as [[[]|e] st3] eqn:H3; [|discriminate].
  destruct (requested (domain args) (analyze_step CapDomain analyzer) st3)
    as [[[]|e] st4] eqn:H4; [|discriminate].
  intros _. simpl snd.
  destruct (requested_prints _ _ _ _ _ H1) as (b1 & E1 & P1).
  destruct (requested_prints _ _ _ _ _ H2) as (b2 & E2 & P2).
  destruct (requested_prints _ _ _ _ _ H3) as (b3 & E3 & P3).
  destruct (requested_prints _ _ _ _ _ H4) as (b4 & E4 & P4).
  exists (b1 ++ b2 ++ b3 ++ b4). split.
  - by rewrite E4, E3, E2, E1, E0, <- !app_assoc.
  - rewrite !prints_app, !length_app, P1, P2, P3, P4.
    unfold inputs_given. simpl.
    by destruct (given (file args)), (given (url args)), (given (ip args)),
      (given (domain args)).
Qed.

(** *** The whole run *)

(** X19.  When no class is found (no module named, the import fails in any way,
    or the module has no [analysis_class]) nothing is constructed and
    nothing analysed: the heap is as it was and the run leaves only log
    records. *)
Theorem no_analysis_without_class argv args st :
  parse_args argv = Ok args ->
  (forall name, analysis_module args = Some name -> resolves name = false) ->
  st_heap (snd (_main argv st)) = st_heap st /\
  exists evs, st_events (snd (_main argv st)) = st_events st ++ evs /\
              Forall (fun e => is_log e = true) evs.
Proof.
  intros Hparse Hun.
  unfold _main, _setup_argparser, lift, mbind, M_bind, bind. rewrite Hparse.
  destruct (setup_logging_frame args st) as (Hh & He).
  destruct (_setup_logging args st) as [[[]|e] st1]; simpl in Hh, He.
  2:{ simpl. split; [exact Hh|]. exists []. rewrite app_nil_r. by split. }
  destruct (load_unresolved args st1 Hun) as (e & Hr).
  destruct (load_frame args st1) as (Hh2 & evs & He2 & Hlogs).
  destruct (_load_analysis_class_from_module args st1) as [[cls|e'] st2];
    simpl in Hr, Hh2, He2; [discriminate|].
  simpl. split; [congruence|]. exists evs. split; [congruence | exact Hlogs].
Qed.

(** X20.  [_main] never returns: every run ends in an exception, [SystemExit(0)]
    when all went well.  So the exit status is 0 exactly when the run ends
    in [SystemExit(0)].  When the argument parser ends the process (help,
    version, a usage error) nothing else has happened. *)
Theorem main_always_raises argv st :
  (exists e, fst (_main argv st) = Raise e) /\
  (exit_status (fst (_main argv st)) = 0 <-> fst (_main argv st) = Raise (SystemExit 0)) /\
  (forall e, parse_args argv = Raise e -> _main argv st = (Raise e, st)).
Proof.
  assert (Hraises : exists e, fst (_main argv st) = Raise e).
  { unfold _main, _setup_argparser, lift, mbind, M_bind, bind.
    destruct (parse_args argv) as [args|e]; [|by eexists].
    destruct (_setup_logging args st) as [[[]|e] st1]; [|by eexists].
    destruct (_load_analysis_class_from_module args st1) as [[cls|e] st2]; [|by eexists].
    destruct (_analyze args cls st2) as [[[]|e] st3]; by eexists. }
  split; [exact Hraises|]. split.
  - destruct Hraises as [e ->]. simpl. split.
    + destruct e; simpl; intros Hs; first [discriminate | by subst].
    + intros Hr. by inversion Hr.
  - intros e He. unfold _main, _setup_argparser, lift, mbind, M_bind, bind.
    by rewrite He.
Qed.

(** The loader's first record names the module. *)
Lemma load_announces args name st :
  analysis_module args = Some name ->
  exists more,
    st_events (snd (_load_analysis_class_from_module args st)) =
    st_events st ++ records (st_handlers st) INFO
                      ("Initializing analysis module: " +:+ name) ++ more.
Proof.
  intros Hm. unfold _load_analysis_class_from_module, mbind, M_bind, bind.
  rewrite Hm, log_run.
  assert (Hnone : forall st0 : state, exists more : list event,
             st_events st0 = st_events st0 ++ more) by (exists []; by rewrite app_nil_r).
  destruct (import_module name) as [m|e].
  - destruct (m !! "analysis_class") as [c|]; [|rewrite log_run]; simpl.
    + exists []. by rewrite app_nil_r.
    + eexists. by rewrite <- app_assoc.
  - destruct e; try rewrite log_run; simpl;
      first [ by (exists []; rewrite app_nil_r) | by (eexists; rewrite <- app_assoc) ].
Qed.

(** X21.  What [analysis_class] is bound to must be callable: for anything else
    [analysis_class()] is a [TypeError], and the run ends there, with
    nothing logged or printed. *)
Theorem analysis_class_must_be_callable args v st :
  callable (st_heap st) v = false ->
  _analyze args (EValue v) st = (Raise TypeError, st).
Proof.
  intros Hc. unfold _analyze, construct.
  destruct v; simpl in Hc; try discriminate;
    unfold call_value, mbind, M_bind, bind, get_heap, raise; try reflexivity.
  cbn [st_heap]. destruct (st_heap st !! l) as [o|]; [|reflexivity].
  by destruct (mro_lookup (ob_mro o) "__call__").
Qed.

(** X22.  In a fresh process where logging was set up, a run that was given a
    module starts its output by naming it, on the console and in the log
    file, before anything is imported; a run without a module writes the
    one error record and exits with 1. *)
Theorem run_starts_by_naming_the_module argv args st st1 :
  parse_args argv = Ok args ->
  st_handlers st = [] ->
  _setup_logging args st = (Ok tt, st1) ->
  match analysis_module args with
  | Some name =>
      exists rest,
        st_events (snd (_main argv st)) =
        st_events st ++ routed args INFO ("Initializing analysis module: " +:+ name) ++ rest
  | None =>
      _main argv st =
      (Raise (SystemExit 1),
       with_events st1 (routed args ERROR "No analysis module specified. Terminating."))
  end.
Proof.
  intros Hparse Hnil Hs.
  pose proof (setup_logging_frame args st) as (_ & He). rewrite Hs in He. simpl in He.
  unfold _main, _setup_argparser, lift, mbind, M_bind, bind. rewrite Hparse, Hs.
  destruct (analysis_module args) as [name|] eqn:Hm.
  - destruct (load_announces args name st1 Hm) as (more & Hl).
    rewrite (routed_records args st st1 INFO _ Hnil Hs) in Hl by reflexivity.
    destruct (_load_analysis_class_from_module args st1) as [[cls|e] st2];
      simpl snd in Hl.
    + destruct (analyze_blocks args cls st2) as (b1 & b2 & b3 & b4 & Ha & _).
      destruct (_analyze args cls st2) as [[[]|e] st3]; simpl snd in Ha |- *;
        cbn [st_events]; rewrite Ha, Hl, He, <- !app_assoc; eexists; reflexivity.
    + simpl snd. rewrite Hl, He. eexists; reflexivity.
  - unfold _load_analysis_class_from_module, mbind, M_bind, bind.
    rewrite Hm, log_run.
    rewrite (routed_records args st st1 ERROR _ Hnil Hs) by (unfold INFO, ERROR; lia).
    reflexivity.
Qed.

End Runs.


(** *** The theorems on the sample modules *)


Lemma log_file_setup_witness :
  _setup_logging log_file_args boot
  = (Ok tt, State [] (st_clock boot)
                  [Handler Console INFO; Handler (LogFile "/tmp/client.log") DEBUG] []).
Proof.
  assert (Hf : log_file log_file_args = Some "/tmp/client.log") by reflexivity.
  assert (Hp : truthy (VStr "/tmp/client.log") = true) by reflexivity.
  assert (Ha : ascii_text (log_level log_file_args) = true) by reflexivity.
  destruct (log_file_setup log_file_args "/tmp/client.log" boot Hf Hp Ha)
    as (_ & Hok & _).
  apply (Hok DEBUG); reflexivity.
Defined.

Lemma records_after_setup_witness :
  log WARNING "w" (snd (_setup_logging log_file_args boot))
  = (Ok tt, with_events (snd (_setup_logging log_file_args boot))
              [EvLog Console WARNING "w"; EvLog (LogFile "/tmp/client.log") WARNING "w"]).
Proof.
  assert (Hnil : st_handlers boot = []) by reflexivity.
  assert (Hs : _setup_logging log_file_args boot
               = (Ok tt, snd (_setup_logging log_file_args boot)))
    by (vm_compute; reflexivity).
  destruct (records_after_setup log_file_args boot _ WARNING "w" Hnil Hs) as (Hup & _).
  apply Hup. unfold INFO, WARNING. lia.
Defined.

Lemma other_import_errors_witness :
  @_load_analysis_class_from_module other_host empty_module_args boot
  = (Raise ValueError, boot).
Proof.
  assert (Hm : analysis_module empty_module_args = Some "") by reflexivity.
  assert (Hi : @import_module other_host "" = Raise ValueError) by reflexivity.
  exact (@other_import_errors_pass_through other_host empty_module_args "" ValueError
           boot Hm Hi ltac:(discriminate) ltac:(discriminate)).
Defined.

Lemma analyze_without_inputs_witness :
  _analyze {| log_file := None; log_level := "WARNING";
              analysis_module := Some "url_plugin";
              file := Some ""; url := None; ip := None; domain := None |}
           (EClass UrlPlugin) boot
  = (Ok tt, url_plugin_state).
Proof.
  assert (Hn : inputs_given
                 {| log_file := None; log_level := "WARNING";
                    analysis_module := Some "url_plugin";
                    file := Some ""; url := None; ip := None; domain := None |}
               = 0%nat) by reflexivity.
  rewrite (proj1 (analyze_without_inputs _ (EClass UrlPlugin) boot Hn)).
  reflexivity.
Defined.

Lemma client_needs_constructor_witness :
  fst (_analyze url_plugin_args (EClass AnalysisPluginURL) boot) = Raise TypeError.
Proof.
  exact (proj1 (client_needs_constructor_without_arguments url_plugin_args
                  AnalysisPluginURL (convenience_mro CapURL) boot
                  (mro_convenience CapURL) (convenience_init CapURL))).
Defined.

Lemma step_needs_query_method_witness :
  hasattr (st_heap duck_state) (VRef 0) "analyze_file" = true /\
  _analyze_file (VRef 0) "/tmp/x" duck_state = (Raise AttributeError, duck_state).
Proof.
  split; [vm_compute; reflexivity|].
  assert (Hstep : client_step CapFile = Some _analyze_file) by reflexivity.
  assert (Hg : getattr (st_heap duck_state) (VRef 0) (query_name CapFile) = None)
    by (vm_compute; reflexivity).
  exact (proj1 (step_needs_query_method CapFile _analyze_file (VRef 0) "/tmp/x"
                  duck_state Hstep Hg)).
Defined.

Lemma inherited_query_decides_step_witness :
  _analyze_file (VRef 0) "/tmp/x" url_plugin_state
  = (Ok VNone,
     with_events (with_events url_plugin_state [EvCall "can_analyze_file" []])
       (records (st_handlers url_plugin_state) WARNING (skip_warning CapFile))).
Proof.
  assert (Hstep : client_step CapFile = Some _analyze_file) by reflexivity.
  assert (Hf : query_func CapFile = Some Fn_can_analyze_file) by reflexivity.
  assert (Hg : getattr (st_heap url_plugin_state) (VRef 0) (query_name CapFile)
               = Some (VMethod Fn_can_analyze_file 0)) by (vm_compute; reflexivity).
  destruct (inherited_query_decides_step CapFile _analyze_file Fn_can_analyze_file 0
              "/tmp/x" url_plugin_state Hstep Hf Hg) as (_ & Hskip).
  apply Hskip. intros (a & Ha & _). vm_compute in Ha. discriminate.
Defined.

Lemma one_print_per_input_witness :
  exists evs,
    st_events (snd (_analyze url_plugin_args (EClass UrlPlugin) boot)) = st_events boot ++ evs /\
    length (prints evs) = 4%nat.
Proof.
  assert (Hok : fst (_analyze url_plugin_args (EClass UrlPlugin) boot) = Ok tt)
    by (vm_compute; reflexivity).
  exact (one_print_per_input url_plugin_args (EClass UrlPlugin) boot Hok).
Defined.

Lemma no_analysis_without_class_witness :
  st_heap (snd (_main ["-a"; "missing_module"] boot)) = [] /\
  exists evs, st_events (snd (_main ["-a"; "missing_module"] boot)) = st_events boot ++ evs /\
              Forall (fun e => is_log e = true) evs.
Proof.
  assert (Hparse : parse_args ["-a"; "missing_module"]
                   = Ok {| log_file := None; log_level := "WARNING";
                           analysis_module := Some "missing_module";
                           file := None; url := None; ip := None; domain := None |})
    by reflexivity.
  apply (no_analysis_without_class ["-a"; "missing_module"] _ boot Hparse).
  intros name [= <-]. reflexivity.
Defined.

Lemma analysis_class_must_be_callable_witness :
  _analyze url_plugin_args (EValue (VStr "UrlPlugin")) boot = (Raise TypeError, boot).
Proof.
  apply (analysis_class_must_be_callable url_plugin_args (VStr "UrlPlugin") boot).
  reflexivity.
Defined.

Lemma run_starts_by_naming_the_module_witness :
  exists rest,
    st_events (snd (_main url_plugin_argv boot)) =
    st_events boot ++ [EvLog Console INFO "Initializing analysis module: url_plugin"] ++ rest.
Proof.
  assert (Hparse : parse_args url_plugin_argv = Ok url_plugin_args) by reflexivity.
  assert (Hnil : st_handlers boot = []) by reflexivity.
  assert (Hs : _setup_logging url_plugin_args boot
               = (Ok tt, State [] (st_clock boot) [Handler Console INFO] []))
    by reflexivity.
  exact (run_starts_by_naming_the_module url_plugin_argv url_plugin_args boot _
           Hparse Hnil Hs).
Defined.

End client_runs.
